(** * ma.py: the article management script of chugakujukenpasssite

    A shallow embedding of [src/scripts/ma.py] and the properties of its
    frontmatter parser, its page template and its processing pipeline.

    Python strings are sequences of Unicode code points; they are modelled as
    lists of code points.  The string methods the script calls ([startswith],
    [split], [strip], [in], [join]) are written out after CPython's
    behaviour.  Exceptions are values of an error monad; the calls to the
    text-generation service and to the file system are answered by a [world]
    of oracles, and every such call is recorded in a trace. *)

From Stdlib Require Import String Ascii.
From Stdlib Require Import List ZArith NArith Bool Lia.
Import ListNotations.

Set Implicit Arguments.

(** ** Strings *)

Definition char := N.
Definition str := list char.

(** Decoding of the UTF-8 bytes of a literal of this file into code points
    (the script's literals contain Japanese text). *)
Fixpoint utf8_decode (bs : list N) : str :=
  match bs with
  | [] => []
  | b0 :: r0 =>
    if (b0 <? 128)%N then b0 :: utf8_decode r0
    else match r0 with
    | [] => [b0]
    | b1 :: r1 =>
      if (b0 <? 224)%N then
        ((b0 - 192) * 64 + (b1 - 128))%N :: utf8_decode r1
      else match r1 with
      | [] => [b0; b1]
      | b2 :: r2 =>
        if (b0 <? 240)%N then
          ((b0 - 224) * 4096 + (b1 - 128) * 64 + (b2 - 128))%N :: utf8_decode r2
        else match r2 with
        | [] => [b0; b1; b2]
        | b3 :: r3 =>
          ((b0 - 240) * 262144 + (b1 - 128) * 4096 + (b2 - 128) * 64 + (b3 - 128))%N
            :: utf8_decode r3
        end
      end
    end
  end.

Definition utf8 (s : string) : str :=
  utf8_decode (map N_of_ascii (list_ascii_of_string s)).

Definition dquote : char := 34%N.
Definition squote : char := 39%N.
Definition newline : char := 10%N.
Definition hyphen : char := 45%N.
Definition underscore : char := 95%N.

Fixpoint str_eqb (a b : str) : bool :=
  match a, b with
  | [], [] => true
  | x :: a', y :: b' => (x =? y)%N && str_eqb a' b'
  | _, _ => false
  end.

(** [Py_UNICODE_ISSPACE]: the characters [str.strip()] removes and the regular
    expression class [\s] matches on a [str] pattern. *)
Definition isspace (c : char) : bool :=
  ((9 <=? c) && (c <=? 13) || (28 <=? c) && (c <=? 32)
   || (c =? 133) || (c =? 160) || (c =? 5760)
   || (8192 <=? c) && (c <=? 8202)
   || (c =? 8232) || (c =? 8233) || (c =? 8239) || (c =? 8287)
   || (c =? 12288))%N.

(** [s.startswith(prefix)] *)
Fixpoint startswith (s prefix : str) {struct prefix} : bool :=
  match prefix, s with
  | [], _ => true
  | p :: prefix', c :: s' => (c =? p)%N && startswith s' prefix'
  | _ :: _, [] => false
  end.

(** [s.find(sub)]: the index of the first occurrence, [None] for -1. *)
Fixpoint find (s sub : str) : option nat :=
  if startswith s sub then Some O
  else match s with
       | [] => None
       | _ :: s' => option_map S (find s' sub)
       end.

(** [sub in s] *)
Definition contains (s sub : str) : bool :=
  match find s sub with Some _ => true | None => false end.

(** The loop of [str.split(sep, maxsplit)] for a non-empty separator: find the
    next occurrence, cut the piece before it, go on after it, at most [n]
    times. *)
Fixpoint splitn (sep : str) (n : nat) (s : str) : list str :=
  match n with
  | O => [s]
  | S n' =>
    match find s sep with
    | None => [s]
    | Some i => firstn i s :: splitn sep n' (skipn (i + length sep) s)
    end
  end.

(** [s.lstrip], [s.rstrip] and [s.strip] over the set of characters [p]. *)
Fixpoint lstrip_by (p : char -> bool) (s : str) : str :=
  match s with
  | [] => []
  | c :: s' => if p c then lstrip_by p s' else s
  end.

Definition rstrip_by (p : char -> bool) (s : str) : str :=
  rev (lstrip_by p (rev s)).

Definition strip_by (p : char -> bool) (s : str) : str :=
  rstrip_by p (lstrip_by p s).

Definition char_in (chars : str) (c : char) : bool :=
  existsb (N.eqb c) chars.

(** [s.strip()] *)
Definition strip (s : str) : str := strip_by isspace s.

(** [s.strip(chars)] *)
Definition strip_chars (s chars : str) : str := strip_by (char_in chars) s.

(** [sep.join(parts)] *)
Fixpoint join (sep : str) (parts : list str) : str :=
  match parts with
  | [] => []
  | [p] => p
  | p :: rest => p ++ sep ++ join sep rest
  end.

(** ** Exceptions *)

Inductive exn : Type :=
| ValueError (msg : str)
| IndexError (msg : str)
| FileNotFoundError (msg : str)
| OSError (msg : str)
| APIError (msg : str)
| JSONDecodeError (msg : str)
| Exception (msg : str).

(** [str(e)] *)
Definition exn_str (e : exn) : str :=
  match e with
  | ValueError msg | IndexError msg | FileNotFoundError msg | OSError msg
  | APIError msg | JSONDecodeError msg | Exception msg => msg
  end.

Inductive result (A : Type) : Type :=
| Ok (a : A)
| Raise (e : exn).
Arguments Ok {A} a.
Arguments Raise {A} e.

Definition bind {A B : Type} (m : result A) (k : A -> result B) : result B :=
  match m with
  | Ok a => k a
  | Raise e => Raise e
  end.

Declare Scope result_scope.
Delimit Scope result_scope with result.
Notation "x <- m ;; k" := (bind m (fun x => k))
  (at level 61, m at next level, right associativity) : result_scope.
Notation "' p <- m ;; k" := (bind m (fun x => match x with p => k end))
  (at level 61, p pattern, m at next level, right associativity) : result_scope.

(** [s.split(sep, maxsplit)]; a negative [maxsplit] is no limit.  A separator
    of at least one character is found at most [length s] times. *)
Definition str_split (s sep : str) (maxsplit : Z) : result (list str) :=
  match sep with
  | [] => Raise (ValueError (utf8 "empty separator"))
  | _ :: _ =>
    Ok (splitn sep (if (maxsplit <? 0)%Z then length s else Z.to_nat maxsplit) s)
  end.

(** [parts[i]] *)
Definition index {A : Type} (parts : list A) (i : nat) : result A :=
  match nth_error parts i with
  | Some x => Ok x
  | None => Raise (IndexError (utf8 "list index out of range"))
  end.

(** [a, b = parts] *)
Definition unpack2 {A : Type} (parts : list A) : result (A * A) :=
  match parts with
  | [a; b] => Ok (a, b)
  | [] | [_] => Raise (ValueError (utf8 "not enough values to unpack (expected 2)"))
  | _ => Raise (ValueError (utf8 "too many values to unpack (expected 2)"))
  end.

(** A [for] loop whose body may raise, threading the loop's state. *)
Fixpoint for_each {A S : Type} (body : S -> A -> result S) (xs : list A) (s : S)
  : result S :=
  match xs with
  | [] => Ok s
  | x :: xs' => bind (body s x) (for_each body xs')
  end.

(** ** Metadata *)

(** The metadata dictionary: its five keys are set when it is created and no
    key is ever added or deleted, so it is a record. *)
Record metadata : Type := mkMetadata {
  title : str;
  description : str;
  category : str;
  tags : list str;
  references : list str
}.

Definition empty_metadata : metadata := mkMetadata [] [] [] [] [].

Definition set_title (m : metadata) (v : str) : metadata :=
  mkMetadata v (description m) (category m) (tags m) (references m).
Definition set_description (m : metadata) (v : str) : metadata :=
  mkMetadata (title m) v (category m) (tags m) (references m).
Definition set_category (m : metadata) (v : str) : metadata :=
  mkMetadata (title m) (description m) v (tags m) (references m).
Definition set_tags (m : metadata) (v : list str) : metadata :=
  mkMetadata (title m) (description m) (category m) v (references m).
Definition set_references (m : metadata) (v : list str) : metadata :=
  mkMetadata (title m) (description m) (category m) (tags m) v.

Definition quotes : str := [dquote; squote].
Definition brackets : str := utf8 "[]".
Definition delimiter : str := utf8 "---".
Definition colon : str := utf8 ":".
Definition comma : str := utf8 ",".

Open Scope result_scope.

(** The body of the loop over the frontmatter's lines. *)
Definition extract_metadata_line (md : metadata) (line : str)
  : result metadata :=
  if contains line colon then
    kv <- str_split line colon 1 ;;
    ' (key, value) <- unpack2 kv ;;
    let key := strip key in
    let value := strip value in
    if str_eqb key (utf8 "title") then
      Ok (set_title md (strip_chars value quotes))
    else if str_eqb key (utf8 "description") then
      Ok (set_description md (strip_chars value quotes))
    else if str_eqb key (utf8 "category") then
      Ok (set_category md (strip_chars value quotes))
    else if str_eqb key (utf8 "tags") then
      let tags_str := strip_chars value brackets in
      ts <- str_split tags_str comma (-1) ;;
      Ok (set_tags md (map (fun t => strip_chars (strip t) quotes) ts))
    else if str_eqb key (utf8 "references") then
      let refs_str := strip_chars value brackets in
      rs <- str_split refs_str comma (-1) ;;
      Ok (set_references md (map (fun r => strip_chars (strip r) quotes) rs))
    else Ok md
  else Ok md.

(** [ArticleManager.extract_metadata] *)
Definition extract_metadata (content : str) : result metadata :=
  let md := empty_metadata in
  if startswith content delimiter then
    parts <- str_split content delimiter 2 ;;
    if (3 <=? length parts)%nat then
      frontmatter <- index parts 1 ;;
      lines <- str_split (strip frontmatter) [newline] (-1) ;;
      for_each extract_metadata_line lines md
    else Ok md
  else Ok md.

(** What one frontmatter line does to the metadata, without the error
    monad: the value [extract_metadata_line] returns. *)
Definition line_update (md : metadata) (line : str) : metadata :=
  match find line colon with
  | None => md
  | Some i =>
    let key := strip (firstn i line) in
    let value := strip (skipn (i + 1) line) in
    let items (v : str) :=
      map (fun t => strip_chars (strip t) quotes)
          (splitn comma (length (strip_chars v brackets)) (strip_chars v brackets)) in
    if str_eqb key (utf8 "title") then set_title md (strip_chars value quotes)
    else if str_eqb key (utf8 "description") then
      set_description md (strip_chars value quotes)
    else if str_eqb key (utf8 "category") then
      set_category md (strip_chars value quotes)
    else if str_eqb key (utf8 "tags") then set_tags md (items value)
    else if str_eqb key (utf8 "references") then set_references md (items value)
    else md
  end.

(** ** The frontmatter block and its lines *)

(** [s.split(sep)] with no limit, for a separator that is not empty. *)
Definition split_all (sep s : str) : list str := splitn sep (length s) s.

(** The frontmatter block of a document: the text between the delimiter the
    document starts with and the next delimiter after it. *)
Definition frontmatter_block (content : str) : option str :=
  if startswith content delimiter then
    let rest := skipn (length delimiter) content in
    match find rest delimiter with
    | Some i => Some (firstn i rest)
    | None => None
    end
  else None.

(** The lines of the block, the block taken without surrounding whitespace; a
    document with no block has none. *)
Definition frontmatter_lines (content : str) : list str :=
  match frontmatter_block content with
  | Some fm => split_all [newline] (strip fm)
  | None => []
  end.

(** The key and the value of a [key: value] line, cut at the first colon, each
    without surrounding whitespace; [None] for a line with no colon. *)
Definition key_value (line : str) : option (str * str) :=
  match find line colon with
  | None => None
  | Some i => Some (strip (firstn i line), strip (skipn (i + 1) line))
  end.

(** The value the lines give a key: that of the last line with this key. *)
Fixpoint field_value (key : str) (lines : list str) : option str :=
  match lines with
  | [] => None
  | line :: rest =>
    match field_value key rest with
    | Some v => Some v
    | None =>
      match key_value line with
      | Some (k, v) => if str_eqb k key then Some v else None
      | None => None
      end
    end
  end.

(** A text field: the value without surrounding quote characters. *)
Definition text_of (v : str) : str := strip_chars v quotes.

(** A list field: the value without surrounding square brackets, cut at the
    commas, each item without surrounding whitespace and quote characters. *)
Definition list_of (v : str) : list str :=
  map (fun t => strip_chars (strip t) quotes) (split_all comma (strip_chars v brackets)).

Definition field {A : Type} (key : str) (lines : list str) (read : str -> A) (default : A)
  : A :=
  match field_value key lines with
  | Some v => read v
  | None => default
  end.

(** The metadata as the frontmatter lines state it. *)
Definition metadata_of_lines (lines : list str) (md : metadata) : metadata :=
  mkMetadata
    (field (utf8 "title") lines text_of (title md))
    (field (utf8 "description") lines text_of (description md))
    (field (utf8 "category") lines text_of (category md))
    (field (utf8 "tags") lines list_of (tags md))
    (field (utf8 "references") lines list_of (references md)).


(** ** The page template *)

Definition quoted (s : string) : str := [dquote] ++ utf8 s ++ [dquote].

(** [d.get(key, default)] on a dictionary literal, kept in insertion order. *)
Fixpoint dict_get (d : list (str * str)) (key default : str) : str :=
  match d with
  | [] => default
  | (k, v) :: d' => if str_eqb k key then v else dict_get d' key default
  end.

Definition nav_links : list (str * str) :=
  [ (utf8 "index.html", utf8 "ホーム");
    (utf8 "math.html", utf8 "算数");
    (utf8 "japanese.html", utf8 "国語");
    (utf8 "science.html", utf8 "理科");
    (utf8 "social.html", utf8 "社会");
    (utf8 "tips.html", utf8 "コツ・勉強法") ].

Definition category_to_file : list (str * str) :=
  [ (utf8 "算数", utf8 "math.html");
    (utf8 "国語", utf8 "japanese.html");
    (utf8 "理科", utf8 "science.html");
    (utf8 "社会", utf8 "social.html");
    (utf8 "コツ・勉強法", utf8 "tips.html") ].

(** One round of the loop that builds [nav_html]. *)
Definition nav_item (active_page : str) (entry : str * str) : str :=
  let (file, label) := entry in
  let active_class := if str_eqb file active_page then utf8 " active" else [] in
  utf8 "                    <li><a href=" ++ [dquote] ++ file ++ [dquote] ++
  utf8 " class=" ++ [dquote] ++ utf8 "nav-link" ++ active_class ++ [dquote] ++
  utf8 ">" ++ label ++ utf8 "</a></li>".

(** The local variables [nav_html] and [breadcrumb_html], by the local
    variables they are built from. *)
Definition nav_html (active_page : str) : list str :=
  map (nav_item active_page) nav_links.

Definition breadcrumb_html (title : str) : str :=
  utf8 "    <nav class=" ++ quoted "breadcrumb" ++ utf8 ">
        <div class=" ++
  quoted "container" ++ utf8 ">
            <ol class=" ++
  quoted "breadcrumb-list" ++ utf8 ">
                <li><a href=" ++
  quoted "index.html" ++ utf8 " class=" ++ quoted "breadcrumb-link" ++
  utf8 ">ホーム</a></li>
                <li class=" ++
  quoted "breadcrumb-separator" ++ utf8 ">></li>
                <li>" ++
  title ++ utf8 "</li>
            </ol>
        </div>
    </nav>".

(** The local variable [active_page]. *)
Definition active_page (md : metadata) (output_filename : str) : str :=
  dict_get category_to_file (category md) output_filename.

(** [ArticleManager.create_full_html_page].  The three [metadata.get] calls
    read keys the dictionary always has, so their defaults are never used. *)
Definition create_full_html_page (content : str) (md : metadata) (output_filename : str)
  : str :=
  let title := title md in
  let description := description md in
  let active_page := active_page md output_filename in
  let nav_html := nav_html active_page in
  let breadcrumb_html := breadcrumb_html title in
  utf8 "<!DOCTYPE html>
<html lang=" ++
  quoted "ja" ++ utf8 ">
<head>
    <meta charset=" ++
  quoted "UTF-8" ++ utf8 ">
    <meta name=" ++
  quoted "viewport" ++ utf8 " content=" ++
  quoted "width=device-width, initial-scale=1.0" ++ utf8 ">
    <title>" ++
  title ++ utf8 " - 中学受験パス</title>
    <meta name=" ++
  quoted "description" ++ utf8 " content=" ++ [dquote] ++ description ++
  [dquote] ++ utf8 ">
    <link rel=" ++
  quoted "stylesheet" ++ utf8 " href=" ++ quoted "styles.css" ++ utf8 ">
</head>
<body>
" ++
  utf8 "    <header class=" ++ quoted "header" ++ utf8 ">
        <div class=" ++
  quoted "container" ++ utf8 ">
            <h1 class=" ++
  quoted "logo" ++ utf8 ">中学受験パス</h1>
            <nav class=" ++
  quoted "nav" ++ utf8 ">
                <ul class=" ++
  quoted "nav-list" ++ utf8 ">
" ++
  join [newline] nav_html ++ utf8 "
                </ul>
            </nav>
        </div>
    </header>

" ++
  breadcrumb_html ++ utf8 "

    <main class=" ++
  quoted "main" ++ utf8 ">
        <div class=" ++
  quoted "container" ++ utf8 ">
" ++
  content ++ utf8 "
        </div>
    </main>

" ++
  utf8 "    <footer class=" ++ quoted "footer" ++ utf8 ">
        <div class=" ++
  quoted "container" ++ utf8 ">
            <p class=" ++
  quoted "footer-text" ++ utf8 ">&copy; 2024 中学受験パス. 頑張る受験生を応援します。</p>
        </div>
    </footer>" ++
  utf8 "
</body>
</html>".

(** The parts of the page, as its description names them. *)
Definition doctype : str := utf8 "<!DOCTYPE html>".

(** The document head, up to the opening of the body. *)
Definition html_head (title description : str) : str :=
  utf8 "<!DOCTYPE html>
<html lang=" ++
  quoted "ja" ++ utf8 ">
<head>
    <meta charset=" ++
  quoted "UTF-8" ++ utf8 ">
    <meta name=" ++
  quoted "viewport" ++ utf8 " content=" ++
  quoted "width=device-width, initial-scale=1.0" ++ utf8 ">
    <title>" ++
  title ++ utf8 " - 中学受験パス</title>
    <meta name=" ++
  quoted "description" ++ utf8 " content=" ++ [dquote] ++ description ++
  [dquote] ++ utf8 ">
    <link rel=" ++
  quoted "stylesheet" ++ utf8 " href=" ++ quoted "styles.css" ++ utf8 ">
</head>
<body>
".

(** The header with the navigation list that marks [active_page]. *)
Definition header_html (active_page : str) : str :=
  utf8 "    <header class=" ++ quoted "header" ++ utf8 ">
        <div class=" ++
  quoted "container" ++ utf8 ">
            <h1 class=" ++
  quoted "logo" ++ utf8 ">中学受験パス</h1>
            <nav class=" ++
  quoted "nav" ++ utf8 ">
                <ul class=" ++
  quoted "nav-list" ++ utf8 ">
" ++
  join [newline] (nav_html active_page) ++ utf8 "
                </ul>
            </nav>
        </div>
    </header>

".

(** The opening and the closing of the main container. *)
Definition main_open : str :=
  utf8 "

    <main class=" ++
  quoted "main" ++ utf8 ">
        <div class=" ++
  quoted "container" ++ utf8 ">
".

Definition main_close : str :=
  utf8 "
        </div>
    </main>

".

Definition footer_html : str :=
  utf8 "    <footer class=" ++ quoted "footer" ++ utf8 ">
        <div class=" ++
  quoted "container" ++ utf8 ">
            <p class=" ++
  quoted "footer-text" ++ utf8 ">&copy; 2024 中学受験パス. 頑張る受験生を応援します。</p>
        </div>
    </footer>".

Definition page_end : str :=
  utf8 "
</body>
</html>".

(** A navigation entry that carries the [active] class. *)
Definition marked_active (item : str) : bool :=
  contains item (utf8 " class=" ++ quoted "nav-link active").

Definition mapped_categories : list str := map fst category_to_file.
Definition nav_files : list str := map fst nav_links.

Definition mem (x : str) (l : list str) : bool := existsb (str_eqb x) l.

(** ** The world of the script *)

(** Paths are those the script builds: [script_dir / name] and
    [root_dir / name]. *)
Inductive path : Type :=
| InScripts (name : str)
| InRoot (name : str).

(** The dictionary [json.loads] returns for the reply to the categories and
    tags request, taken at the shape the prompt asks for: an object whose keys
    [category] (a string), [tags] and [related_pages] (lists of strings) may
    each be missing. *)
Record generated : Type := mkGenerated {
  gen_category : option str;
  gen_tags : option (list str);
  gen_related_pages : option (list str)
}.

(** [d.get(key, default)] for a key of [generated]. *)
Definition get {A : Type} (entry : option A) (default : A) : A :=
  match entry with
  | Some v => v
  | None => default
  end.

(** A request to the text-generation service, by the values its prompt is
    built from (the prompt is a fixed text around them). *)
Inductive request : Type :=
| CategoriesAndTags (excerpt : str)
| HtmlContent (title category tags references markdown_content : str).

(** What is printed, by the statement that prints it and the values it
    formats. *)
Inductive message : Type :=
| MsgProcessing (article_path : path)
| MsgMetadata (md : metadata)
| MsgGenerating
| MsgGenerated (g : generated)
| MsgGeneratingHtml
| MsgUpdateMissing (output_filename : str)
| MsgCreating
| MsgSuccess (update_mode : bool) (output_path : path)
| MsgCategory (category : str)
| MsgTags (tags : str)
| MsgWarning (e : exn)
| MsgFound (n : nat)
| MsgArticle (name : str)
| MsgError (e : exn).

Inductive event : Type :=
| Print (msg : message)
| PrintErr (msg : message)
| ReadFile (p : path)
| Chat (req : request)
| WriteFile (p : path) (text : str).

(** The answers of the environment: the process environment, the file system
    and the text-generation service.  A reply of the service is what the
    client call and, for the categories and tags, [json.loads] give: a value
    or the exception raised. *)
Record world : Type := mkWorld {
  environ_api_key : option str;
  path_exists : path -> bool;
  read_text : path -> result str;
  write_text : path -> str -> result unit;
  glob_md : list str;
  chat_json : request -> result generated;
  chat_text : request -> result str
}.

(** ** Effects: a trace of events and a result *)

Definition io (A : Type) : Type := (list event * result A)%type.

Definition io_ret {A : Type} (a : A) : io A := ([], Ok a).

Definition io_bind {A B : Type} (m : io A) (k : A -> io B) : io B :=
  match m with
  | (t, Ok a) => let (t', r) := k a in (t ++ t', r)
  | (t, Raise e) => (t, Raise e)
  end.

Definition emit (ev : event) : io unit := ([ev], Ok tt).
Definition raise {A : Type} (e : exn) : io A := ([], Raise e).
Definition lift {A : Type} (r : result A) : io A := ([], r).

(** [try: m except Exception as e: handler e] *)
Definition try_except {A : Type} (m : io A) (handler : exn -> io A) : io A :=
  match m with
  | (t, Ok a) => (t, Ok a)
  | (t, Raise e) => let (t', r) := handler e in (t ++ t', r)
  end.

Declare Scope io_scope.
Delimit Scope io_scope with io.
Notation "x <- m ;; k" := (io_bind m (fun x => k))
  (at level 61, m at next level, right associativity) : io_scope.
Notation "m ;; k" := (io_bind m (fun _ => k))
  (at level 61, right associativity) : io_scope.

(** Truth values of the objects the script tests. *)
Definition nonempty {A : Type} (l : list A) : bool :=
  match l with [] => false | _ :: _ => true end.

Definition truthy (o : option str) : bool :=
  match o with Some s => nonempty s | None => false end.

(** ** Regular expressions *)

(** [re.sub(pattern, repl, s)] for a pattern that is one character class:
    every character of the class is a match. *)
Fixpoint re_sub_class (cls : char -> bool) (repl s : str) : str :=
  match s with
  | [] => []
  | c :: s' =>
    if cls c then repl ++ re_sub_class cls repl s' else c :: re_sub_class cls repl s'
  end.

(** [re.sub(pattern, repl, s)] for a pattern [class+]: a match starts at a
    character of the class and, greedy, takes every character of the class
    that follows; [in_match] says the character before was taken by a
    match, which a character of the class then extends. *)
Fixpoint re_sub_class_plus_from (cls : char -> bool) (repl : str) (in_match : bool)
  (s : str) : str :=
  match s with
  | [] => []
  | c :: s' =>
    if cls c then
      (if in_match then [] else repl) ++ re_sub_class_plus_from cls repl true s'
    else c :: re_sub_class_plus_from cls repl false s'
  end.

Definition re_sub_class_plus (cls : char -> bool) (repl s : str) : str :=
  re_sub_class_plus_from cls repl false s.

Definition default_generated : generated :=
  mkGenerated (Some (utf8 "General")) (Some []) (Some []).

Record manager : Type := mkManager { manager_api_key : str }.

(** The command line, as [argparse] hands it over. *)
Record args : Type := mkArgs {
  arg_article : str;
  arg_output : option str;
  arg_update : bool;
  arg_api_key : option str;
  arg_list : bool
}.

Section Pipeline.

Open Scope io_scope.

(** Tables and functions of the Python runtime: [Py_UNICODE_ISALNUM],
    [str.lower], [str(path)] and [path.stem]. *)
Variable isalnum : char -> bool.
Variable lower : str -> str.
Variable path_str : path -> str.
Variable path_stem : path -> str.

(** The class [\w] of a [str] pattern. *)
Definition is_word (c : char) : bool := isalnum c || (c =? underscore)%N.

(** [ArticleManager.__init__] *)
Definition init (w : world) (api_key : option str) : io manager :=
  let api_key := if truthy api_key then api_key else environ_api_key w in
  match api_key with
  | Some key =>
    if nonempty key then io_ret (mkManager key)
    else raise (ValueError (utf8 "OpenAI API key not provided. Set OPENAI_API_KEY environment variable or pass api_key parameter."))
  | None =>
    raise (ValueError (utf8 "OpenAI API key not provided. Set OPENAI_API_KEY environment variable or pass api_key parameter."))
  end.

(** [ArticleManager.read_article] *)
Definition read_article (w : world) (article_path : path) : io str :=
  if negb (path_exists w article_path) then
    raise (FileNotFoundError (utf8 "Article not found: " ++ path_str article_path))
  else
    emit (ReadFile article_path) ;;
    lift (read_text w article_path).

(** [ArticleManager.generate_html_content] *)
Definition generate_html_content (w : world) (markdown_content : str) (md : metadata)
  : io str :=
  let req := HtmlContent (title md) (category md) (join (utf8 ", ") (tags md))
                         (join (utf8 ", ") (references md)) markdown_content in
  try_except
    (emit (Chat req) ;;
     text <- lift (chat_text w req) ;;
     io_ret (strip text))
    (fun e => raise (Exception (utf8 "OpenAI API error: " ++ exn_str e))).

(** [ArticleManager.generate_categories_and_tags] *)
Definition generate_categories_and_tags (w : world) (markdown_content : str)
  : io generated :=
  let req := CategoriesAndTags (firstn 1000 markdown_content) in
  try_except
    (emit (Chat req) ;;
     lift (chat_json w req))
    (fun e =>
       emit (Print (MsgWarning e)) ;;
       io_ret default_generated).

(** The block of [process_article] that fills in what the frontmatter left
    out. *)
Definition infer_missing (w : world) (content : str) (md : metadata) : io metadata :=
  if negb (nonempty (category md)) || negb (nonempty (tags md)) then
    emit (Print MsgGenerating) ;;
    generated <- generate_categories_and_tags w content ;;
    let md :=
      if negb (nonempty (category md))
      then set_category md (get (gen_category generated) (utf8 "General")) else md in
    let md :=
      if negb (nonempty (tags md))
      then set_tags md (get (gen_tags generated) []) else md in
    let md :=
      if negb (nonempty (references md))
      then set_references md (get (gen_related_pages generated) []) else md in
    emit (Print (MsgGenerated generated)) ;;
    io_ret md
  else io_ret md.

(** The block of [process_article] that determines the output filename. *)
Definition determine_output_filename (output_filename : option str) (md : metadata)
  (article_path : path) : str :=
  if negb (truthy output_filename) then
    if nonempty (title md) then
      let base_name :=
        re_sub_class (fun c => negb (is_word c || isspace c || (c =? hyphen)%N)) []
                     (title md) in
      let base_name :=
        lower (re_sub_class_plus (fun c => (c =? hyphen)%N || isspace c) [hyphen]
                                 base_name) in
      base_name ++ utf8 ".html"
    else path_stem article_path ++ utf8 ".html"
  else get output_filename [].

(** [ArticleManager.process_article] *)
Definition process_article (w : world) (article_path : path)
  (output_filename : option str) (update_mode : bool) : io unit :=
  emit (Print (MsgProcessing article_path)) ;;
  content <- read_article w article_path ;;
  md <- lift (extract_metadata content) ;;
  emit (Print (MsgMetadata md)) ;;
  md <- infer_missing w content md ;;
  emit (Print MsgGeneratingHtml) ;;
  html_content <- generate_html_content w content md ;;
  let output_filename := determine_output_filename output_filename md article_path in
  let output_path := InRoot output_filename in
  (if update_mode && negb (path_exists w output_path)
   then emit (Print (MsgUpdateMissing output_filename)) else io_ret tt) ;;
  emit (Print MsgCreating) ;;
  let full_html := create_full_html_page html_content md output_filename in
  emit (WriteFile output_path full_html) ;;
  lift (write_text w output_path full_html) ;;
  emit (Print (MsgSuccess update_mode output_path)) ;;
  emit (Print (MsgCategory (category md))) ;;
  emit (Print (MsgTags (join (utf8 ", ") (tags md)))).

(** [ArticleManager.list_articles] and the loop of [main] that prints them. *)
Definition list_articles (w : world) : list str := glob_md w.

Fixpoint print_articles (articles : list str) : io unit :=
  match articles with
  | [] => io_ret tt
  | article :: rest => emit (Print (MsgArticle article)) ;; print_articles rest
  end.

(** [main]: the trace of the run and the exit status. *)
Definition main (w : world) (a : args) : list event * Z :=
  let run :=
    _ <- init w (arg_api_key a) ;;
    if arg_list a then
      let articles := list_articles w in
      emit (Print (MsgFound (length articles))) ;;
      print_articles articles
    else
      let article_path := InScripts (arg_article a) in
      process_article w article_path (arg_output a) (arg_update a) in
  match run with
  | (t, Ok _) => (t, 0%Z)
  | (t, Raise e) => (t ++ [PrintErr (MsgError e)], 1%Z)
  end.

End Pipeline.

(** ** The requests, as the service receives them *)

(** The [prompt] of [generate_categories_and_tags], around the excerpt
    [markdown_content[:1000]]. *)
Definition categories_prompt (excerpt : str) : str :=
  utf8 "Analyze the following article content and suggest appropriate categories and tags for a Japanese middle school entrance exam preparation website.

Existing categories on the site:
- 算数 (Math)
- 国語 (Japanese)
- 理科 (Science)
- 社会 (Social Studies)
- コツ・勉強法 (Study Tips)

Article content:
" ++
  excerpt ++
  utf8 "...

Provide your response as JSON with the following structure:
{
    " ++
  [dquote] ++ utf8 "category" ++ [dquote] ++ utf8 ": " ++ [dquote] ++
  utf8 "suggested category (use one of the existing categories or suggest a new one in Japanese)" ++
  [dquote] ++
  utf8 ",
    " ++
  [dquote] ++ utf8 "tags" ++ [dquote] ++ utf8 ": [" ++ [dquote] ++ utf8 "tag1" ++
  [dquote] ++ utf8 ", " ++ [dquote] ++ utf8 "tag2" ++ [dquote] ++ utf8 ", " ++
  [dquote] ++ utf8 "tag3" ++ [dquote] ++
  utf8 "],
    " ++
  [dquote] ++ utf8 "related_pages" ++ [dquote] ++ utf8 ": [" ++ [dquote] ++
  utf8 "page1.html" ++ [dquote] ++ utf8 ", " ++ [dquote] ++ utf8 "page2.html" ++
  [dquote] ++
  utf8 "]
}

Suggest 3-5 relevant tags in Japanese.".

(** The [prompt] of [generate_html_content], around the values it formats:
    the title, the category, the tags and the references joined with a comma
    and a space, and the markdown content. *)
Definition html_prompt (title category tags references markdown_content : str) : str :=
  utf8 "Convert the following markdown article into well-structured HTML content for a Japanese middle school entrance exam preparation website.

The article metadata:
- Title: " ++
  title ++
  utf8 "
- Category: " ++
  category ++
  utf8 "
- Tags: " ++
  tags ++
  utf8 "

Requirements:
1. Generate clean HTML content (without <!DOCTYPE>, <html>, <head>, or <body> tags)
2. Use semantic HTML5 tags (article, section, h2, h3, etc.)
3. Apply existing CSS classes from the site: article-content, highlight-box, warning-box
4. Create proper Japanese typography and formatting
5. Include navigation breadcrumbs if appropriate
6. Add internal links to related pages if references are provided: " ++
  references ++
  utf8 "
7. Use tables with inline styles matching the existing site style (border-collapse:collapse, padding:0.5rem, border:1px solid #ddd)
8. Follow the structure pattern from existing pages (header, nav, main, article, footer)

Markdown content:
" ++
  markdown_content ++
  utf8 "

Generate the complete HTML page following the existing site structure.".

(** The user message of a request. *)
Definition prompt_of (req : request) : str :=
  match req with
  | CategoriesAndTags excerpt => categories_prompt excerpt
  | HtmlContent title category tags references markdown_content =>
    html_prompt title category tags references markdown_content
  end.

(** How many of the entries built for the page [active] carry the class. *)
Definition active_count (active : str) : nat :=
  length (filter marked_active (nav_html active)).

(** ** Observations on a trace *)

Definition is_inference (ev : event) : bool :=
  match ev with
  | Chat (CategoriesAndTags _) => true
  | _ => false
  end.

(** The run asked the service to infer categories and tags. *)
Definition asks_inference (t : list event) : bool := existsb is_inference t.

(** The runtime's tables on ASCII text, for running the model on examples. *)
Definition ascii_isalnum (c : char) : bool :=
  ((48 <=? c) && (c <=? 57) || (65 <=? c) && (c <=? 90) || (97 <=? c) && (c <=? 122))%N.

Definition ascii_lower (s : str) : str :=
  map (fun c => if ((65 <=? c) && (c <=? 90))%N then (c + 32)%N else c) s.

Definition posix_str (p : path) : str :=
  match p with
  | InScripts name => utf8 "scripts/" ++ name
  | InRoot name => name
  end.

(** The name up to its last dot (the whole name when the dot is missing or
    leads it). *)
Definition name_stem (p : path) : str :=
  let name := match p with InScripts name | InRoot name => name end in
  match rev (splitn (utf8 ".") (length name) name) with
  | _ :: (_ :: _) as front =>
    let s := join (utf8 ".") (rev front) in
    if nonempty s then s else name
  | _ => name
  end.

Definition is_raise {A : Type} (r : result A) : bool :=
  match r with Ok _ => false | Raise _ => true end.

(** A step of the pipeline whose failure ends the run: reading the article,
    the conversion request, writing the page. *)
Definition hard_failure (w : world) (ev : event) : bool :=
  match ev with
  | ReadFile p => is_raise (read_text w p)
  | Chat (HtmlContent t c tg r m) => is_raise (chat_text w (HtmlContent t c tg r m))
  | WriteFile p text => is_raise (write_text w p text)
  | _ => false
  end.

(** A failed step of any kind: the above, and the categories and tags
    request. *)
Definition step_fails (w : world) (ev : event) : bool :=
  match ev with
  | Chat (CategoriesAndTags x) => is_raise (chat_json w (CategoriesAndTags x))
  | _ => hard_failure w ev
  end.

Definition is_error_report (ev : event) : bool :=
  match ev with PrintErr (MsgError _) => true | _ => false end.

(** Every step of the trace that [fails] is followed by the error report
    and nothing else. *)
Fixpoint stops_at_failure (fails : event -> bool) (t : list event) : bool :=
  match t with
  | [] => true
  | ev :: rest =>
    if fails ev then
      match rest with
      | [report] => is_error_report report
      | _ => false
      end
    else stops_at_failure fails rest
  end.

(** Every categories and tags request that fails is followed by the warning
    that names the exception, after which the run goes on. *)
Fixpoint warns_and_goes_on (w : world) (t : list event) : bool :=
  match t with
  | [] => true
  | Chat (CategoriesAndTags x) :: rest =>
    match chat_json w (CategoriesAndTags x), rest with
    | Raise _, Print (MsgWarning _) :: Print (MsgGenerated g) :: _ :: _ =>
      match g with
      | mkGenerated (Some c) (Some []) (Some []) =>
        str_eqb c (utf8 "General") && warns_and_goes_on w rest
      | _ => false
      end
    | Raise _, _ => false
    | Ok _, _ => warns_and_goes_on w rest
    end
  | _ :: rest => warns_and_goes_on w rest
  end.

Definition is_write (ev : event) : bool :=
  match ev with WriteFile _ _ => true | _ => false end.

(** ** The output filename in the words of its description *)

(** The maximal runs of a string: its characters grouped into the longest
    stretches that lie all inside or all outside a class, each with the side
    it lies on. *)
Fixpoint runs (cls : char -> bool) (s : str) : list (bool * str) :=
  match s with
  | [] => []
  | c :: s' =>
    match runs cls s' with
    | (b, r) :: rs =>
      if Bool.eqb b (cls c) then (b, c :: r) :: rs else (cls c, [c]) :: (b, r) :: rs
    | [] => [(cls c, [c])]
    end
  end.

(** Each run inside the class replaced by [repl]. *)
Definition render_runs (repl : str) (rs : list (bool * str)) : str :=
  concat (map (fun run : bool * str => if fst run then repl else snd run) rs).

Definition replace_runs (cls : char -> bool) (repl s : str) : str :=
  render_runs repl (runs cls s).

(** Non-empty stretches that alternate between the inside and the outside of
    the class. *)
Fixpoint alternating (cls : char -> bool) (rs : list (bool * str)) : Prop :=
  match rs with
  | [] => True
  | (b, r) :: rest =>
    r <> [] /\ Forall (fun c => cls c = b) r /\
    match rest with
    | [] => True
    | (b', _) :: _ => b' = negb b
    end /\ alternating cls rest
  end.

Section FilenameOfTitle.

Variable isalnum : char -> bool.
Variable lower : str -> str.

(** From a title: delete every character that is not a word character,
    whitespace or a hyphen; replace each maximal run of hyphens and
    whitespace by one hyphen; lowercase; append [.html]. *)
Definition filename_of_title (title : str) : str :=
  let kept :=
    filter (fun c => is_word isalnum c || isspace c || (c =? hyphen)%N) title in
  lower (replace_runs (fun c => (c =? hyphen)%N || isspace c) [hyphen] kept)
  ++ utf8 ".html".

End FilenameOfTitle.

(** The reply the inference step works with: that of the service, or the
    default dictionary when the request or the decoding of its reply
    raised. *)
Definition reply_or_default (w : world) (content : str) : generated :=
  match chat_json w (CategoriesAndTags (firstn 1000 content)) with
  | Ok g => g
  | Raise _ => default_generated
  end.

(** The inference step runs: the category or the tags are empty. *)
Definition inference_runs (md : metadata) : bool :=
  negb (nonempty (category md)) || negb (nonempty (tags md)).

Definition ends_with_error_report (t : list event) : bool :=
  match rev t with
  | ev :: _ => is_error_report ev
  | [] => false
  end.

(** A world for running the model: the API key of the environment, the text
    of the article (if the file exists), the reply to the categories and
    tags request and the reply to the conversion request; every write
    succeeds. *)
Definition sample_world (key : option str) (article : option str)
  (reply : result generated) (page : result str) : world :=
  {| environ_api_key := key;
     path_exists := fun p =>
       match p, article with
       | InScripts _, Some _ => true
       | _, _ => false
       end;
     read_text := fun _ =>
       match article with
       | Some text => Ok text
       | None => Raise (OSError (utf8 "no such file"))
       end;
     write_text := fun _ _ => Ok tt;
     glob_md := [utf8 "article.md"];
     chat_json := fun _ => reply;
     chat_text := fun _ => page |}.

Definition sample_args : args := mkArgs (utf8 "article.md") None false None false.

Definition with_category_and_tags : str := utf8 "---
title: Fractions
category: math
tags: [a, b]
---
body".

Definition with_empty_tags : str := utf8 "---
tags: []
---
body".

Definition sample_reply : generated :=
  mkGenerated (Some (utf8 "算数")) (Some [utf8 "分数"]) (Some [utf8 "math.html"]).

Definition sample_page : result str := Ok (utf8 "<article>text</article>").

(** ** Observations on strings and fields *)

(** The string begins or ends with a character of the set. *)
Definition at_edge (p : char -> bool) (s : str) : bool :=
  match s with
  | [] => false
  | c :: _ => p c || p (last s c)
  end.

Definition comma_char : char := 44%N.
Definition colon_char : char := 58%N.

(** [s.count(c)] for a character. *)
Definition count_char (c : char) (s : str) : nat := length (filter (N.eqb c) s).

(** ** The values a run works with *)

(** The metadata of an article once the inference block of
    [process_article] is passed: what [extract_metadata] gives, completed by
    [infer_missing]. *)
Definition extracted (content : str) : metadata :=
  match extract_metadata content with
  | Ok md => md
  | Raise _ => empty_metadata
  end.

Definition inferred (w : world) (content : str) : metadata :=
  match snd (infer_missing w content (extracted content)) with
  | Ok md => md
  | Raise _ => extracted content
  end.

(** The requests of a run, by the article's text. *)
Definition inference_request (content : str) : request :=
  CategoriesAndTags (firstn 1000 content).

Definition conversion_request (w : world) (content : str) : request :=
  let md := inferred w content in
  HtmlContent (title md) (category md) (join (utf8 ", ") (tags md))
              (join (utf8 ", ") (references md)) content.

Definition is_chat (ev : event) : bool :=
  match ev with Chat _ => true | _ => false end.

Definition is_print (ev : event) : bool :=
  match ev with Print _ | PrintErr _ => true | _ => false end.

(** The steps of a trace that reach outside the process: the file system
    and the service. *)
Definition effects (t : list event) : list event := filter (fun ev => negb (is_print ev)) t.

(** An API key is at hand: on the command line or in the environment, and
    not empty. *)
Definition key_available (w : world) (a : args) : bool :=
  truthy (arg_api_key a) || truthy (environ_api_key w).

Definition missing_key : exn :=
  ValueError (utf8 "OpenAI API key not provided. Set OPENAI_API_KEY environment variable or pass api_key parameter.").

Definition is_stderr (ev : event) : bool :=
  match ev with PrintErr _ => true | _ => false end.

Section Outcome.

Variable isalnum : char -> bool.
Variable lower : str -> str.
Variable path_str : path -> str.
Variable path_stem : path -> str.

(** The name of the page of an article and the page itself, given the reply
    to the conversion request. *)
Definition page_name (w : world) (a : args) (content : str) : str :=
  determine_output_filename isalnum lower path_stem (arg_output a) (inferred w content)
                            (InScripts (arg_article a)).

Definition page_text (w : world) (a : args) (content reply : str) : str :=
  create_full_html_page (strip reply) (inferred w content) (page_name w a content).

(** How a run ends, read off the answers of the world: with the first of
    the failures that end it, or well. *)
Definition outcome (w : world) (a : args) : result unit :=
  let article_path := InScripts (arg_article a) in
  if negb (key_available w a) then Raise missing_key
  else if arg_list a then Ok tt
  else if negb (path_exists w article_path) then
    Raise (FileNotFoundError (utf8 "Article not found: " ++ path_str article_path))
  else
    match read_text w article_path with
    | Raise e => Raise e
    | Ok content =>
      match chat_text w (conversion_request w content) with
      | Raise e => Raise (Exception (utf8 "OpenAI API error: " ++ exn_str e))
      | Ok reply =>
        write_text w (InRoot (page_name w a content)) (page_text w a content reply)
      end
    end.

End Outcome.

(** ** Writing a frontmatter *)

(** The document one writes for a metadata record: the opening delimiter,
    a line for each field, the closing delimiter, the body. *)
Definition text_line (key value : str) : str := key ++ utf8 ": " ++ value.

Definition list_line (key : str) (items : list str) : str :=
  key ++ utf8 ": " ++ utf8 "[" ++ join (utf8 ", ") items ++ utf8 "]".

Definition frontmatter_of (md : metadata) : list str :=
  [ text_line (utf8 "title") (title md);
    text_line (utf8 "description") (description md);
    text_line (utf8 "category") (category md);
    list_line (utf8 "tags") (tags md);
    list_line (utf8 "references") (references md) ].

Definition block_of (md : metadata) : str :=
  [newline] ++ join [newline] (frontmatter_of md) ++ [newline].

Definition document_of (md : metadata) (body : str) : str :=
  delimiter ++ block_of md ++ delimiter ++ body.

(** A text that can be written as a value: within a line, with no
    whitespace and no quote character at either end. *)
Definition plain (s : str) : bool :=
  negb (char_in s newline) && negb (at_edge isspace s)
  && negb (at_edge (char_in quotes) s).

(** A list that can be written: not empty, of plain items that hold no
    comma, with no square bracket at either end once the items are joined. *)
Definition plain_list (items : list str) : bool :=
  nonempty items
  && forallb (fun t => plain t && negb (char_in t comma_char)) items
  && negb (at_edge (char_in brackets) (join (utf8 ", ") items)).

(** A record that can be written: plain fields, and a block in which the
    closing delimiter is the first one. *)
Definition writable (md : metadata) : bool :=
  plain (title md) && plain (description md) && plain (category md)
  && plain_list (tags md) && plain_list (references md)
  && negb (contains (block_of md ++ [hyphen; hyphen]) delimiter).

Definition sample_metadata : metadata :=
  {| title := utf8 "分数の計算: 基本";
     description := utf8 "1/2 - 1/3 の計算";
     category := utf8 "算数";
     tags := [utf8 "分数"; utf8 "計算"];
     references := [utf8 "math.html"] |}.

Definition sample_body : str := utf8 "
# 分数

---
本文".

Example extract_metadata_ex1 :
  extract_metadata (utf8 "---
title: 'Hello'
tags: [a, b]
---
body") = Ok (mkMetadata (utf8 "Hello") [] [] [utf8 "a"; utf8 "b"] []).
Proof. vm_compute. reflexivity. Qed.

(** ** Facts about the string operations *)

Lemma str_eqb_eq (a b : str) : str_eqb a b = true <-> a = b.
Proof.
  revert b; induction a as [|x a IH]; intros [|y b]; simpl;
    try (split; [discriminate | discriminate]); try tauto.
  rewrite andb_true_iff, N.eqb_eq, IH.
  split.
  - intros [-> ->]; reflexivity.
  - intros H; inversion H; auto.
Qed.

Lemma str_eqb_refl (a : str) : str_eqb a a = true.
Proof. apply str_eqb_eq; reflexivity. Qed.

Lemma startswith_app (p r : str) : startswith (p ++ r) p = true.
Proof.
  induction p as [|c p IH]; simpl; [reflexivity|].
  rewrite N.eqb_refl; exact IH.
Qed.

Lemma startswith_true (s p : str) :
  startswith s p = true -> s = p ++ skipn (length p) s.
Proof.
  revert s; induction p as [|c p IH]; intros s H; simpl in *; [reflexivity|].
  destruct s as [|x s]; [discriminate|].
  apply andb_true_iff in H as [Hc Hs].
  apply N.eqb_eq in Hc; subst x.
  simpl; f_equal; apply IH, Hs.
Qed.

(** A prefix test only reads as many characters as the prefix has. *)
Lemma startswith_app_l (x z p : str) :
  (length p <= length x)%nat -> startswith (x ++ z) p = startswith x p.
Proof.
  revert x; induction p as [|c p IH]; intros x Hlen; simpl; [destruct x; reflexivity|].
  destruct x as [|a x]; simpl in *; [lia|].
  rewrite IH by lia; reflexivity.
Qed.

Lemma find_bound (s sub : str) (i : nat) :
  find s sub = Some i -> (i + length sub <= length s)%nat.
Proof.
  revert i; induction s as [|c s IH]; intros i; cbn [find];
    match goal with |- context [startswith ?x sub] => destruct (startswith x sub) eqn:E end.
  - intros H; inversion H; subst.
    apply startswith_true, (f_equal (@length _)) in E.
    rewrite length_app in E; simpl in *; lia.
  - discriminate.
  - intros H; inversion H; subst.
    apply startswith_true, (f_equal (@length _)) in E.
    rewrite length_app in E; simpl in *; lia.
  - destruct (find s sub) as [j|] eqn:F; simpl; [|discriminate].
    intros H; inversion H; subst. specialize (IH j eq_refl). simpl; lia.
Qed.

(** Where [find] answers, the string is the text before the occurrence, the
    substring, and the text after it. *)
Lemma find_split (s sub : str) (i : nat) :
  find s sub = Some i -> s = firstn i s ++ sub ++ skipn (i + length sub) s.
Proof.
  revert i; induction s as [|c s IH]; intros i; cbn [find];
    match goal with |- context [startswith ?x sub] => destruct (startswith x sub) eqn:E end.
  - intros H; inversion H; subst. apply startswith_true in E. exact E.
  - discriminate.
  - intros H; inversion H; subst. apply startswith_true in E. exact E.
  - destruct (find s sub) as [j|] eqn:F; simpl; [|discriminate].
    intros H; inversion H; subst. simpl. f_equal. apply IH; reflexivity.
Qed.

(** Splitting needs no more rounds than the string has characters. *)
Lemma splitn_enough (sep : str) :
  sep <> [] ->
  forall (n : nat) (s : str), (length s <= n)%nat -> splitn sep n s = splitn sep (length s) s.
Proof.
  intros Hsep.
  assert (Hlen : (1 <= length sep)%nat) by (destruct sep; [congruence | simpl; lia]).
  assert (G : forall n m s, (length s <= n)%nat -> (length s <= m)%nat ->
                            splitn sep n s = splitn sep m s).
  { induction n as [|n IH]; intros m s Hn Hm.
    - destruct s; [|simpl in Hn; lia].
      destruct m; cbn [splitn]; [reflexivity|].
      destruct (find [] sep) as [i|] eqn:F; [|reflexivity].
      apply find_bound in F; simpl in F; lia.
    - destruct m as [|m].
      + destruct s; [|simpl in Hm; lia].
        cbn [splitn]. destruct (find [] sep) as [i|] eqn:F; [|reflexivity].
        apply find_bound in F; simpl in F; lia.
      + cbn [splitn]. destruct (find s sep) as [i|] eqn:F; [|reflexivity].
        f_equal. pose proof (find_bound _ _ F) as B.
        apply IH; rewrite length_skipn; lia. }
  intros n s Hn. apply G; lia.
Qed.

Lemma str_split_ok (s sep : str) (maxsplit : Z) :
  sep <> [] ->
  str_split s sep maxsplit =
  Ok (splitn sep (if (maxsplit <? 0)%Z then length s else Z.to_nat maxsplit) s).
Proof. destruct sep; [congruence | reflexivity]. Qed.

(** ** The parser never raises *)

Lemma extract_metadata_line_ok (md : metadata) (line : str) :
  extract_metadata_line md line = Ok (line_update md line).
Proof.
  unfold extract_metadata_line, line_update, contains.
  destruct (find line colon) as [i|] eqn:F; [|reflexivity].
  rewrite str_split_ok by discriminate.
  change (Z.to_nat 1) with 1%nat. change (1 <? 0)%Z with false.
  cbn [splitn]. rewrite F. cbn [unpack2 bind].
  change (length colon) with 1%nat.
  repeat match goal with
         | |- context [if str_eqb ?a ?b then _ else _] => destruct (str_eqb a b)
         end; try reflexivity;
    rewrite str_split_ok by discriminate; reflexivity.
Qed.

Lemma for_each_lines_ok (lines : list str) (md : metadata) :
  for_each extract_metadata_line lines md = Ok (fold_left line_update lines md).
Proof.
  revert md; induction lines as [|l lines IH]; intros md; simpl; [reflexivity|].
  rewrite extract_metadata_line_ok; simpl. apply IH.
Qed.

Lemma find_startswith (s sub : str) : startswith s sub = true -> find s sub = Some O.
Proof. intros H; destruct s; cbn [find]; rewrite H; reflexivity. Qed.

Lemma extract_metadata_lines (content : str) :
  extract_metadata content =
  Ok (fold_left line_update (frontmatter_lines content) empty_metadata).
Proof.
  unfold extract_metadata, frontmatter_lines, frontmatter_block.
  destruct (startswith content delimiter) eqn:E; [|reflexivity].
  rewrite str_split_ok by discriminate.
  change (Z.to_nat 2) with 2%nat. change (2 <? 0)%Z with false.
  cbn [splitn]. rewrite (find_startswith _ _ E).
  cbn [firstn Nat.add]. cbv zeta.
  destruct (find (skipn (length delimiter) content) delimiter) as [i|] eqn:F.
  - cbn [bind length Nat.leb index nth_error].
    rewrite str_split_ok by discriminate.
    change (-1 <? 0)%Z with true. cbn [bind].
    apply for_each_lines_ok.
  - reflexivity.
Qed.

Lemma line_update_one (md : metadata) (line : str) :
  line_update md line = metadata_of_lines [line] md.
Proof.
  unfold line_update, metadata_of_lines, field, key_value; cbn [field_value].
  unfold key_value, text_of, list_of, split_all.
  destruct (find line colon) as [i|]; [|destruct md; reflexivity].
  generalize (strip (skipn (i + 1) line)) as value.
  generalize (strip (firstn i line)) as key.
  intros key value; cbv zeta.
  destruct (str_eqb key (utf8 "title")) eqn:E1;
    [apply str_eqb_eq in E1; subst key; destruct md; reflexivity|].
  destruct (str_eqb key (utf8 "description")) eqn:E2;
    [apply str_eqb_eq in E2; subst key; destruct md; reflexivity|].
  destruct (str_eqb key (utf8 "category")) eqn:E3;
    [apply str_eqb_eq in E3; subst key; destruct md; reflexivity|].
  destruct (str_eqb key (utf8 "tags")) eqn:E4;
    [apply str_eqb_eq in E4; subst key; destruct md; reflexivity|].
  destruct (str_eqb key (utf8 "references")) eqn:E5;
    [apply str_eqb_eq in E5; subst key; destruct md; reflexivity|].
  destruct md; reflexivity.
Qed.

(** Reading the lines one after the other leaves each field at the value of
    the last line that names it. *)
Lemma fold_line_update (lines : list str) (md : metadata) :
  fold_left line_update lines md = metadata_of_lines lines md.
Proof.
  revert md; induction lines as [|l lines IH]; intros md.
  - destruct md; reflexivity.
  - cbn [fold_left]. rewrite IH, line_update_one.
    unfold metadata_of_lines, field; cbn [field_value title description category tags references].
    f_equal;
      match goal with
      | |- context [field_value ?k lines] => destruct (field_value k lines); reflexivity
      end.
Qed.

Lemma extract_metadata_of_lines (content : str) :
  extract_metadata content =
  Ok (metadata_of_lines (frontmatter_lines content) empty_metadata).
Proof. rewrite extract_metadata_lines, fold_line_update; reflexivity. Qed.

(** C1: for every input, [extract_metadata] returns a record of the five
    fields title, description, category (strings), tags and references (lists
    of strings).  Each field holds the value of the frontmatter line with its
    key (the last one, when several lines have the key): for a text field the
    value without surrounding whitespace and without surrounding quote
    characters; for tags and references the value without surrounding square
    brackets, cut at the commas, each item without surrounding whitespace and
    quote characters.  A field no line names keeps its empty default. *)
Theorem extract_metadata_fields (content : str) :
  let lines := frontmatter_lines content in
  extract_metadata content =
  Ok {| title := field (utf8 "title") lines text_of [];
        description := field (utf8 "description") lines text_of [];
        category := field (utf8 "category") lines text_of [];
        tags := field (utf8 "tags") lines list_of [];
        references := field (utf8 "references") lines list_of [] |}.
Proof.
  intros lines. rewrite extract_metadata_of_lines.
  unfold metadata_of_lines, empty_metadata; cbn [title description category tags references].
  reflexivity.
Qed.

(** C2: [extract_metadata] is total.  The model lets [split], the indexing
    [parts[1]] and the unpacking [key, value = ...] raise as they do in
    Python; on every input, malformed frontmatter included, none of them
    does, and a metadata record is returned. *)
Theorem extract_metadata_total (content : str) :
  (exists md : metadata, extract_metadata content = Ok md) /\
  (forall e : exn, extract_metadata content <> Raise e).
Proof.
  pose proof (extract_metadata_lines content) as H.
  split.
  - eexists; exact H.
  - intros e He. rewrite H in He. discriminate He.
Qed.

Example extract_metadata_malformed :
  extract_metadata (utf8 "---
title
: x
tags: []
unknown: 1
references:
no closing delimiter") = Ok empty_metadata /\
  extract_metadata (utf8 "---
title
: x
tags: []
unknown: 1
references:
---") = Ok (mkMetadata [] [] [] [[]] [[]]).
Proof. split; vm_compute; reflexivity. Qed.

(** ** Only the frontmatter block is read *)

Lemma delimiter_hyphens : delimiter = [hyphen; hyphen; hyphen].
Proof. reflexivity. Qed.

Lemma frontmatter_block_none (content : str) :
  frontmatter_block content = None -> extract_metadata content = Ok empty_metadata.
Proof.
  intros H. rewrite extract_metadata_lines.
  unfold frontmatter_lines; rewrite H; reflexivity.
Qed.

Lemma frontmatter_block_app (rest : str) :
  frontmatter_block (delimiter ++ rest) =
  match find rest delimiter with
  | Some i => Some (firstn i rest)
  | None => None
  end.
Proof.
  unfold frontmatter_block. rewrite startswith_app.
  rewrite skipn_app, skipn_all, Nat.sub_diag. reflexivity.
Qed.

(** The second delimiter is found right after a block that, followed by two
    hyphens, holds no delimiter. *)
Lemma find_second_delimiter (fm body : str) :
  contains (fm ++ [hyphen; hyphen]) delimiter = false ->
  find (fm ++ delimiter ++ body) delimiter = Some (length fm).
Proof.
  unfold contains. induction fm as [|c fm IH]; intros H.
  - cbn [app]. apply find_startswith, startswith_app.
  - cbn [app] in *. cbn [find] in *.
    destruct (startswith (c :: fm ++ [hyphen; hyphen]) delimiter) eqn:E; [discriminate|].
    assert (E' : startswith (c :: fm ++ delimiter ++ body) delimiter = false).
    { rewrite <- E. rewrite delimiter_hyphens.
      replace (c :: fm ++ [hyphen; hyphen; hyphen] ++ body)
        with ((c :: fm ++ [hyphen; hyphen]) ++ hyphen :: body).
      - apply startswith_app_l. simpl. rewrite length_app. simpl. lia.
      - simpl. f_equal. rewrite <- app_assoc. reflexivity. }
    rewrite E'.
    destruct (find (fm ++ [hyphen; hyphen]) delimiter) eqn:F; [discriminate|].
    rewrite IH by reflexivity. reflexivity.
Qed.

Lemma frontmatter_block_found (fm body : str) :
  contains (fm ++ [hyphen; hyphen]) delimiter = false ->
  frontmatter_block (delimiter ++ fm ++ delimiter ++ body) = Some fm.
Proof.
  intros H. rewrite frontmatter_block_app, (find_second_delimiter _ _ H).
  rewrite firstn_app, firstn_all, Nat.sub_diag. simpl. rewrite app_nil_r. reflexivity.
Qed.

(** C8: [extract_metadata] reads only the frontmatter block.  A content that
    does not start with the delimiter, or in which no second delimiter
    follows the first, gives the all-empty record.  Otherwise the result is
    decided by the text [fm] between the first and the second delimiter
    (the second delimiter is the first one after [fm]: [fm] followed by two
    hyphens holds none): whatever body follows, the result is the same, the
    metadata of the lines of [fm]. *)
Theorem extract_metadata_reads_block_only (content rest fm body body' : str) :
  (startswith content delimiter = false ->
   extract_metadata content = Ok empty_metadata) /\
  (contains rest delimiter = false ->
   extract_metadata (delimiter ++ rest) = Ok empty_metadata) /\
  (contains (fm ++ [hyphen; hyphen]) delimiter = false ->
   extract_metadata (delimiter ++ fm ++ delimiter ++ body) =
   extract_metadata (delimiter ++ fm ++ delimiter ++ body') /\
   extract_metadata (delimiter ++ fm ++ delimiter ++ body) =
   Ok (metadata_of_lines (split_all [newline] (strip fm)) empty_metadata)).
Proof.
  split; [|split].
  - intros H. apply frontmatter_block_none.
    unfold frontmatter_block; rewrite H; reflexivity.
  - intros H. apply frontmatter_block_none.
    rewrite frontmatter_block_app. unfold contains in H.
    destruct (find rest delimiter); [discriminate | reflexivity].
  - intros H.
    assert (G : forall b, extract_metadata (delimiter ++ fm ++ delimiter ++ b) =
                          Ok (metadata_of_lines (split_all [newline] (strip fm)) empty_metadata)).
    { intros b. rewrite extract_metadata_of_lines.
      unfold frontmatter_lines. rewrite (frontmatter_block_found _ b H). reflexivity. }
    split; [rewrite (G body), (G body'); reflexivity | apply G].
Qed.

Lemma extract_metadata_reads_block_only_witness :
  (startswith (utf8 "title: x") delimiter = false /\
   extract_metadata (utf8 "title: x") = Ok empty_metadata) /\
  (contains (utf8 "
title: x
") delimiter = false /\
   extract_metadata (delimiter ++ utf8 "
title: x
") = Ok empty_metadata) /\
  (contains (utf8 "
title: x
" ++ [hyphen; hyphen]) delimiter = false /\
   extract_metadata (delimiter ++ utf8 "
title: x
" ++ delimiter ++ utf8 "
title: y") =
   extract_metadata (delimiter ++ utf8 "
title: x
" ++ delimiter ++ utf8 "
--- other ---") /\
   extract_metadata (delimiter ++ utf8 "
title: x
" ++ delimiter ++ utf8 "
title: y") = Ok (mkMetadata (utf8 "x") [] [] [] [])).
Proof.
  pose proof (extract_metadata_reads_block_only
                (utf8 "title: x")
                (utf8 "
title: x
")
                (utf8 "
title: x
")
                (utf8 "
title: y")
                (utf8 "
--- other ---")) as [H1 [H2 H3]].
  split; [|split].
  - split; [reflexivity | apply H1; reflexivity].
  - split; [reflexivity | apply H2; reflexivity].
  - split; [reflexivity|].
    destruct (H3 eq_refl) as [H4 H5].
    split; [exact H4 | rewrite H5; reflexivity].
Defined.

(** ** The trace and the result of a sequence *)

Lemma trace_bind {A B : Type} (m : io A) (k : A -> io B) :
  fst (io_bind m k) =
  fst m ++ match snd m with Ok a => fst (k a) | Raise _ => [] end.
Proof.
  destruct m as [t [a|e]]; simpl.
  - destruct (k a); reflexivity.
  - rewrite app_nil_r; reflexivity.
Qed.

Lemma result_bind {A B : Type} (m : io A) (k : A -> io B) :
  snd (io_bind m k) = match snd m with Ok a => snd (k a) | Raise e => Raise e end.
Proof.
  destruct m as [t [a|e]]; simpl; [destruct (k a)|]; reflexivity.
Qed.

Lemma asks_inference_app (t t' : list event) :
  asks_inference (t ++ t') = asks_inference t || asks_inference t'.
Proof. apply existsb_app. Qed.

(** ** The page template *)

(** Cutting a chain of concatenations in front of one of its pieces. *)
Lemma chain_here (x rest : str) : x ++ rest = [] ++ x ++ rest.
Proof. reflexivity. Qed.

Lemma chain_later (a r h rest : str) : r = h ++ rest -> a ++ r = (a ++ h) ++ rest.
Proof. intros ->; apply app_assoc. Qed.

Ltac cut_chain_at x :=
  lazymatch goal with
  | |- x ++ _ = _ => apply chain_here
  | |- _ ++ _ = _ => eapply chain_later; cut_chain_at x
  end.

Lemma str_eqb_sym (a b : str) : str_eqb a b = str_eqb b a.
Proof.
  destruct (str_eqb a b) eqn:E.
  - apply str_eqb_eq in E; subst; symmetry; apply str_eqb_refl.
  - destruct (str_eqb b a) eqn:E'; [|reflexivity].
    apply str_eqb_eq in E'; subst. rewrite str_eqb_refl in E; discriminate.
Qed.

Lemma active_count_nav_file (active : str) :
  active_count active = if mem active nav_files then 1%nat else 0%nat.
Proof.
  unfold active_count, nav_html, nav_files, mem, nav_links.
  cbn [map fst existsb nav_item].
  rewrite !(str_eqb_sym active).
  repeat match goal with
         | |- context [str_eqb ?f active] =>
           let E := fresh "E" in
           destruct (str_eqb f active) eqn:E;
             [apply str_eqb_eq in E; subst active; vm_compute; reflexivity|]
         end.
  vm_compute; reflexivity.
Qed.

Lemma active_page_mapped (md : metadata) (output_filename : str) :
  mem (category md) mapped_categories = true ->
  mem (active_page md output_filename) nav_files = true.
Proof.
  unfold active_page, mapped_categories, mem, category_to_file.
  cbn [map fst existsb dict_get].
  rewrite !(str_eqb_sym (category md)).
  repeat match goal with
         | |- context [str_eqb ?k (category md)] =>
           destruct (str_eqb k (category md)); [intros _; vm_compute; reflexivity|]
         end.
  discriminate.
Qed.

Lemma active_page_mapped_any (md : metadata) (f f' : str) :
  mem (category md) mapped_categories = true ->
  active_page md f = active_page md f'.
Proof.
  unfold active_page, mapped_categories, mem, category_to_file.
  cbn [map fst existsb dict_get].
  rewrite !(str_eqb_sym (category md)).
  repeat match goal with
         | |- context [str_eqb ?k (category md)] =>
           destruct (str_eqb k (category md)); [reflexivity|]
         end.
  discriminate.
Qed.

Lemma active_page_unmapped (md : metadata) (output_filename : str) :
  mem (category md) mapped_categories = false ->
  active_page md output_filename = output_filename.
Proof.
  unfold active_page, mapped_categories, mem, category_to_file.
  cbn [map fst existsb dict_get].
  rewrite !(str_eqb_sym (category md)).
  repeat match goal with
         | |- context [str_eqb ?k (category md)] =>
           destruct (str_eqb k (category md)); [discriminate|]
         end.
  reflexivity.
Qed.

(** C10: of the six navigation entries of the page, at most one carries
    the [active] class: exactly one when the category is one of the five
    mapped categories or the output filename is one of the six navigation
    files, none otherwise.  The entries are those the page holds, joined by
    newlines. *)
Theorem nav_marks_at_most_one_active (content : str) (md : metadata)
  (output_filename : str) :
  length (nav_html (active_page md output_filename)) = 6%nat /\
  length (filter marked_active (nav_html (active_page md output_filename))) =
    (if mem (category md) mapped_categories || mem output_filename nav_files
     then 1%nat else 0%nat) /\
  (length (filter marked_active (nav_html (active_page md output_filename))) <= 1)%nat /\
  exists before after : str,
    create_full_html_page content md output_filename =
    before ++ join [newline] (nav_html (active_page md output_filename)) ++ after.
Proof.
  assert (Hcount : length (filter marked_active (nav_html (active_page md output_filename))) =
                   (if mem (category md) mapped_categories || mem output_filename nav_files
                    then 1%nat else 0%nat)).
  { change (length (filter marked_active (nav_html (active_page md output_filename))))
      with (active_count (active_page md output_filename)).
    rewrite active_count_nav_file.
    destruct (mem (category md) mapped_categories) eqn:Hc.
    - rewrite (active_page_mapped md output_filename Hc). reflexivity.
    - rewrite (active_page_unmapped md output_filename Hc). reflexivity. }
  split; [reflexivity|].
  split; [exact Hcount|].
  split.
  - rewrite Hcount.
    destruct (mem (category md) mapped_categories || mem output_filename nav_files); lia.
  - unfold create_full_html_page.
    eexists. eexists.
    cut_chain_at (join [newline] (nav_html (active_page md output_filename))).
Qed.

(** C6, as amended: the page is the document head, the header with its
    navigation list, the breadcrumb, the opening of the main container, the
    fragment verbatim, the closing of the container, the footer and the end
    of the document.  The page starts with the doctype; the navigation list
    has six entries; the head depends on the title and the description only,
    the breadcrumb on the title only, the header on the active page only
    (which the category decides and, for a category that is not mapped, the
    output filename); the footer and the container are the same for every
    input.  No part but the fragment itself depends on the fragment. *)
Theorem page_frame (content : str) (md : metadata) (output_filename : str) :
  create_full_html_page content md output_filename =
    html_head (title md) (description md)
    ++ header_html (active_page md output_filename)
    ++ breadcrumb_html (title md)
    ++ main_open ++ content ++ main_close
    ++ footer_html ++ page_end /\
  startswith (create_full_html_page content md output_filename) doctype = true /\
  length (nav_html (active_page md output_filename)) = 6%nat /\
  active_page md output_filename =
    (if mem (category md) mapped_categories then active_page md [] else output_filename).
Proof.
  split; [|split; [|split]]; cycle 3.
  { destruct (mem (category md) mapped_categories) eqn:Hc.
    - apply active_page_mapped_any, Hc.
    - apply active_page_unmapped, Hc. }
  - unfold create_full_html_page, html_head, header_html, main_open, main_close,
      footer_html, page_end.
    cbv zeta. rewrite <- !app_assoc. reflexivity.
  - unfold create_full_html_page. cbv zeta.
    rewrite startswith_app_l by (vm_compute; lia).
    vm_compute. reflexivity.
  - reflexivity.
Qed.

(** C6 as stated fails: with the same fragment, title, description and
    category, two output filenames give two different pages (the navigation
    entry of [index.html] is marked active in the first only). *)
Lemma page_depends_on_output_filename :
  str_eqb
    (create_full_html_page (utf8 "<p>x</p>") empty_metadata (utf8 "index.html"))
    (create_full_html_page (utf8 "<p>x</p>") empty_metadata (utf8 "about.html"))
  = false /\
  active_count (active_page empty_metadata (utf8 "index.html")) = 1%nat /\
  active_count (active_page empty_metadata (utf8 "about.html")) = 0%nat.
Proof. repeat split; vm_compute; reflexivity. Qed.

(** ** The output filename *)

(** Substituting the empty string for a class deletes its characters. *)
Lemma re_sub_class_delete (cls : char -> bool) (s : str) :
  re_sub_class cls [] s = filter (fun c => negb (cls c)) s.
Proof.
  induction s as [|c s IH]; simpl; [reflexivity|].
  destruct (cls c); simpl; rewrite IH; reflexivity.
Qed.

(** The scan of [class+] against the runs of the string: a run inside the
    class gives one [repl], or nothing when the scan is already inside a
    match that the run continues. *)
Lemma re_sub_class_plus_from_runs (cls : char -> bool) (repl : str) (s : str) :
  forall in_match : bool,
    re_sub_class_plus_from cls repl in_match s =
    match runs cls s with
    | (true, _) :: rs => (if in_match then [] else repl) ++ render_runs repl rs
    | rs => render_runs repl rs
    end.
Proof.
  induction s as [|c s IH]; intros in_match; [reflexivity|].
  cbn [re_sub_class_plus_from runs].
  destruct (cls c) eqn:Hc.
  - rewrite (IH true).
    destruct (runs cls s) as [|[[|] r] rs]; reflexivity.
  - rewrite (IH false).
    destruct (runs cls s) as [|[[|] r] rs]; reflexivity.
Qed.

Lemma re_sub_class_plus_runs (cls : char -> bool) (repl s : str) :
  re_sub_class_plus cls repl s = replace_runs cls repl s.
Proof.
  unfold re_sub_class_plus, replace_runs.
  rewrite re_sub_class_plus_from_runs.
  destruct (runs cls s) as [|[[|] r] rs]; reflexivity.
Qed.

Lemma runs_partition (cls : char -> bool) (s : str) :
  concat (map snd (runs cls s)) = s /\ alternating cls (runs cls s).
Proof.
  induction s as [|c s [IHc IHa]]; [split; [reflexivity | exact I]|].
  cbn [runs].
  destruct (runs cls s) as [|[b r] rs] eqn:R.
  - simpl in IHc; subst s. split; [reflexivity|].
    cbn [alternating]. repeat split; auto. discriminate.
  - cbn [map snd concat] in IHc. cbn [alternating] in IHa.
    destruct IHa as (Hne & Hall & Hnext & Hrest).
    destruct (Bool.eqb b (cls c)) eqn:E.
    + apply eqb_prop in E. split.
      * cbn [map snd concat app]. rewrite IHc. reflexivity.
      * cbn [alternating]. repeat split; auto. discriminate.
    + apply eqb_false_iff in E. split.
      * cbn [map snd concat app]. rewrite IHc. reflexivity.
      * cbn [alternating]. repeat split; auto; try discriminate.
        destruct b, (cls c); try reflexivity; congruence.
Qed.

Section OutputFilename.

Variable isalnum : char -> bool.
Variable lower : str -> str.
Variable path_stem : path -> str.

(** C7: with no output filename supplied, the output filename is, for a
    title that is not empty, the title with every character deleted that is
    not a word character, whitespace or a hyphen, each maximal run of hyphens
    and whitespace replaced by one hyphen, lowercased, with [.html]
    appended; for an empty title, the stem of the article file with [.html]
    appended.  A filename that is supplied (and not empty) is used as it
    is. *)
Theorem output_filename_from_title (md : metadata) (article_path : path) :
  determine_output_filename isalnum lower path_stem None md article_path =
    (if nonempty (title md) then filename_of_title isalnum lower (title md)
     else path_stem article_path ++ utf8 ".html") /\
  forall (c : char) (name : str),
    determine_output_filename isalnum lower path_stem (Some (c :: name)) md article_path =
    c :: name.
Proof.
  split; [|reflexivity].
  unfold determine_output_filename, filename_of_title.
  cbn [truthy negb]. cbv zeta.
  destruct (nonempty (title md)); [|reflexivity].
  rewrite re_sub_class_delete, re_sub_class_plus_runs.
  do 3 f_equal. apply filter_ext.
  intros c. apply negb_involutive.
Qed.

End OutputFilename.

Example output_filename_ex :
  determine_output_filename ascii_isalnum ascii_lower name_stem None
    (mkMetadata (utf8 "Hello,  World -- 2024!") [] [] [] []) (InScripts (utf8 "article.md"))
  = utf8 "hello-world-2024.html" /\
  determine_output_filename ascii_isalnum ascii_lower name_stem None
    empty_metadata (InScripts (utf8 "my.article.md"))
  = utf8 "my.article.html".
Proof. split; vm_compute; reflexivity. Qed.

(** ** The pipeline *)

Section PipelineFacts.

Variable isalnum : char -> bool.
Variable lower : str -> str.
Variable path_str : path -> str.
Variable path_stem : path -> str.

Local Abbreviation process_article' := (process_article isalnum lower path_str path_stem).
Local Abbreviation main' := (main isalnum lower path_str path_stem).

Ltac io_simpl :=
  repeat first
    [ rewrite trace_bind | rewrite result_bind | rewrite asks_inference_app
    | progress cbn [negb fst snd emit lift io_ret raise app asks_inference existsb
                    is_inference orb] ].

Lemma infer_missing_asks (w : world) (content : str) (md : metadata) :
  asks_inference (fst (infer_missing w content md)) = inference_runs md.
Proof.
  unfold infer_missing, inference_runs.
  destruct (negb (nonempty (category md)) || negb (nonempty (tags md))); [|reflexivity].
  unfold generate_categories_and_tags, try_except, io_bind, emit, lift, io_ret.
  destruct (chat_json w _); reflexivity.
Qed.

Lemma generate_html_content_asks (w : world) (content : str) (md : metadata) :
  asks_inference (fst (generate_html_content w content md)) = false.
Proof.
  unfold generate_html_content, try_except, io_bind, emit, lift, io_ret, raise.
  destruct (chat_text w _); reflexivity.
Qed.

Lemma process_article_asks (w : world) (article_path : path)
  (output_filename : option str) (update_mode : bool) (content : str) (md : metadata) :
  path_exists w article_path = true ->
  read_text w article_path = Ok content ->
  extract_metadata content = Ok md ->
  asks_inference (fst (process_article' w article_path output_filename update_mode)) =
  inference_runs md.
Proof.
  intros He Hr Hm.
  unfold process_article, read_article.
  rewrite He. io_simpl. rewrite Hr, Hm. io_simpl.
  rewrite infer_missing_asks.
  destruct (snd (infer_missing w content md)) as [md0|e]; [|apply orb_false_r].
  io_simpl. rewrite generate_html_content_asks.
  destruct (snd (generate_html_content w content md0)) as [html|e]; [|apply orb_false_r].
  io_simpl.
  destruct (update_mode && _); io_simpl;
    destruct (write_text w _ _); io_simpl; apply orb_false_r.
Qed.

(** C3: in [process_article], once the article is read and its metadata
    extracted, the service is asked to infer categories and tags if and only
    if the extracted category is empty or the extracted tags list is empty;
    with both present no inference request is made. *)
Theorem inference_iff_category_or_tags_missing (w : world) (article_path : path)
  (output_filename : option str) (update_mode : bool) (content : str) (md : metadata) :
  path_exists w article_path = true ->
  read_text w article_path = Ok content ->
  extract_metadata content = Ok md ->
  (asks_inference (fst (process_article' w article_path output_filename update_mode)) = true
   <-> category md = [] \/ tags md = []) /\
  (category md <> [] -> tags md <> [] ->
   asks_inference (fst (process_article' w article_path output_filename update_mode)) = false).
Proof.
  intros He Hr Hm.
  rewrite (process_article_asks w article_path output_filename update_mode He Hr Hm).
  unfold inference_runs.
  destruct (category md) as [|c cs], (tags md) as [|t ts]; cbn [nonempty negb orb];
    (split; [split; [intros H; try discriminate H; auto | intros [H|H]; try discriminate H; reflexivity]
            | intros H1 H2; try reflexivity; congruence]).
Qed.

Lemma infer_missing_result (w : world) (content : str) (md : metadata) :
  snd (infer_missing w content md) =
  Ok {| title := title md;
        description := description md;
        category :=
          if nonempty (category md) then category md
          else get (gen_category (reply_or_default w content)) (utf8 "General");
        tags :=
          if nonempty (tags md) then tags md
          else get (gen_tags (reply_or_default w content)) [];
        references :=
          if nonempty (references md) || negb (inference_runs md) then references md
          else get (gen_related_pages (reply_or_default w content)) [] |}.
Proof.
  unfold infer_missing, inference_runs, reply_or_default, generate_categories_and_tags,
    try_except, io_bind, emit, lift, io_ret.
  destruct md as [t d c tg r]; cbn [title description category tags references].
  destruct c as [|c0 c], tg as [|t0 tg], r as [|r0 r];
    cbn [nonempty negb orb]; try reflexivity;
    destruct (chat_json w _); reflexivity.
Qed.

(** C4, as amended: the inference step leaves the title and the
    description as the frontmatter gave them, and so each of the category,
    the tags and the references that the frontmatter gave (not empty).  It
    fills an empty category and empty tags from the reply, and, when it
    runs, empty references from the reply's related pages. *)
Theorem inference_fills_only_missing (w : world) (content : str) (md : metadata) :
  exists md' : metadata,
    snd (infer_missing w content md) = Ok md' /\
    title md' = title md /\
    description md' = description md /\
    category md' =
      (if nonempty (category md) then category md
       else get (gen_category (reply_or_default w content)) (utf8 "General")) /\
    tags md' =
      (if nonempty (tags md) then tags md
       else get (gen_tags (reply_or_default w content)) []) /\
    references md' =
      (if nonempty (references md) || negb (inference_runs md) then references md
       else get (gen_related_pages (reply_or_default w content)) []).
Proof.
  eexists. split; [apply infer_missing_result|].
  cbn [title description category tags references].
  repeat split.
Qed.

Lemma print_articles_trace (articles : list str) :
  print_articles articles = (map (fun n => Print (MsgArticle n)) articles, Ok tt).
Proof.
  induction articles as [|n l IH]; [reflexivity|].
  cbn [print_articles io_bind emit]. rewrite IH. reflexivity.
Qed.

(** A listing only prints: no step of it fails, none warns, and its last
    event is no error report. *)
Lemma listing_quiet (w : world) (names : list str) (first : message) :
  let t := Print first :: map (fun n => Print (MsgArticle n)) names in
  stops_at_failure (hard_failure w) t = true /\
  warns_and_goes_on w t = true /\
  ends_with_error_report t = false.
Proof.
  cbv zeta. split; [|split].
  - cbn [stops_at_failure hard_failure].
    induction names as [|n l IH]; [reflexivity | exact IH].
  - cbn [warns_and_goes_on].
    induction names as [|n l IH]; [reflexivity | exact IH].
  - unfold ends_with_error_report.
    replace (Print first :: map (fun n => Print (MsgArticle n)) names)
      with (map Print (first :: map MsgArticle names))
      by (cbn [map]; rewrite map_map; reflexivity).
    rewrite <- map_rev.
    destruct (rev (first :: map MsgArticle names)); reflexivity.
Qed.

Ltac run_step :=
  first
    [ progress cbn [io_bind emit lift io_ret raise try_except fst snd app negb
                    stops_at_failure warns_and_goes_on hard_failure is_error_report
                    is_raise ends_with_error_report rev existsb orb andb
                    default_generated str_eqb]
    | match goal with
      | H : ?x = _ |- context [?x] => rewrite H
      end ].

Ltac run_leaf :=
  repeat run_step;
  repeat first [split | intro];
  try reflexivity; try discriminate; try congruence.

(** From the conversion request to the end of [process_article]. *)
Ltac run_publish w :=
  unfold generate_html_content;
  match goal with
  | |- context [chat_text w ?r] =>
    let Hh := fresh "Hh" in
    destruct (chat_text w r) as [?html|?e] eqn:Hh
  end;
  repeat run_step;
  [ match goal with
    | |- context [if ?c then emit _ else io_ret tt] => destruct c
    end;
    repeat run_step;
    match goal with
    | |- context [write_text w ?p ?x] =>
      let Hw := fresh "Hw" in
      destruct (write_text w p x) eqn:Hw
    end;
    run_leaf
  | run_leaf ].

(** C5, as amended: a failure of reading the article, of the conversion
    request or of writing the page is followed by the error report and
    nothing else, and the exit status is 1 exactly when the run ends with
    the error report; so is a missing API key and a missing article file.
    A failure of the categories and tags request is not such an error: it is
    reported as a warning and the run goes on with the default reply
    (category General, no tags, no related pages). *)
Theorem first_error_ends_run (w : world) (a : args) :
  stops_at_failure (hard_failure w) (fst (main' w a)) = true /\
  warns_and_goes_on w (fst (main' w a)) = true /\
  (snd (main' w a) =? 1)%Z = ends_with_error_report (fst (main' w a)) /\
  (snd (main' w a) =? 0)%Z = negb (ends_with_error_report (fst (main' w a))) /\
  (forall e : exn,
     snd (init w (arg_api_key a)) = Raise e ->
     main' w a = ([PrintErr (MsgError e)], 1%Z)) /\
  (is_raise (snd (init w (arg_api_key a))) = false ->
   arg_list a = false ->
   path_exists w (InScripts (arg_article a)) = false ->
   main' w a =
   ([Print (MsgProcessing (InScripts (arg_article a)));
     PrintErr (MsgError (FileNotFoundError
       (utf8 "Article not found: " ++ path_str (InScripts (arg_article a)))))], 1%Z)).
Proof.
  unfold main, init.
  destruct (if truthy (arg_api_key a) then arg_api_key a else environ_api_key w) as [key|];
    [destruct (nonempty key)|]; [|run_leaf..].
  repeat run_step.
  destruct (arg_list a).
  - rewrite print_articles_trace. repeat run_step.
    destruct (listing_quiet w (list_articles w) (MsgFound (length (list_articles w))))
      as (H1 & H2 & H3).
    change (rev (map (fun n => Print (MsgArticle n)) (list_articles w)) ++
            [Print (MsgFound (length (list_articles w)))])
      with (rev (Print (MsgFound (length (list_articles w)))
                 :: map (fun n => Print (MsgArticle n)) (list_articles w))).
    fold (ends_with_error_report
            (Print (MsgFound (length (list_articles w)))
             :: map (fun n => Print (MsgArticle n)) (list_articles w))).
    cbn [stops_at_failure hard_failure warns_and_goes_on] in H1, H2.
    rewrite H1, H2, H3. run_leaf.
  - unfold process_article, read_article.
    destruct (path_exists w (InScripts (arg_article a))) eqn:He; repeat run_step;
      [|run_leaf].
    destruct (read_text w (InScripts (arg_article a))) as [content|e] eqn:Hr;
      repeat run_step; [|run_leaf].
    rewrite extract_metadata_lines. repeat run_step.
    generalize (fold_left line_update (frontmatter_lines content) empty_metadata) as md.
    intros md. unfold infer_missing.
    destruct (negb (nonempty (category md)) || negb (nonempty (tags md)));
      repeat run_step.
    + unfold generate_categories_and_tags.
      destruct (chat_json w (CategoriesAndTags (firstn 1000 content))) as [g|e] eqn:Hj;
        repeat run_step; run_publish w.
    + run_publish w.
Qed.

Lemma empty_list_value (v : str) :
  strip_chars v brackets = [] -> list_of v = [[]].
Proof. unfold list_of. intros ->. reflexivity. Qed.

(** C9, as amended: a tags line whose value is empty once the brackets are
    stripped gives the one-element list of the empty string, not the empty
    list.  That list is not empty, so [process_article] takes the tags as
    present: the inference step never replaces them, and the inference
    request is made exactly when the category is empty (it is skipped when
    the category is present too). *)
Theorem empty_tags_value_counts_as_present (w : world) (article_path : path)
  (output_filename : option str) (update_mode : bool) (content v : str) :
  field_value (utf8 "tags") (frontmatter_lines content) = Some v ->
  strip_chars v brackets = [] ->
  path_exists w article_path = true ->
  read_text w article_path = Ok content ->
  exists md : metadata,
    extract_metadata content = Ok md /\
    tags md = [[]] /\
    (exists md' : metadata,
       snd (infer_missing w content md) = Ok md' /\ tags md' = [[]]) /\
    asks_inference (fst (process_article' w article_path output_filename update_mode)) =
    negb (nonempty (category md)).
Proof.
  intros Hv Hempty He Hr.
  pose proof (extract_metadata_of_lines content) as Hm.
  set (md := metadata_of_lines (frontmatter_lines content) empty_metadata) in *.
  assert (Ht : tags md = [[]]).
  { unfold md, metadata_of_lines, field; cbn [tags].
    rewrite Hv. apply empty_list_value, Hempty. }
  exists md. split; [exact Hm|]. split; [exact Ht|]. split.
  - eexists. split; [apply infer_missing_result|].
    cbn [tags]. rewrite Ht. reflexivity.
  - rewrite (process_article_asks w article_path output_filename update_mode He Hr Hm).
    unfold inference_runs. rewrite Ht. apply orb_false_r.
Qed.

End PipelineFacts.

(** ** The model at work on sample runs *)

Lemma inference_iff_category_or_tags_missing_witness :
  let w := sample_world (Some (utf8 "key")) (Some with_category_and_tags)
                        (Ok sample_reply) sample_page in
  let md := mkMetadata (utf8 "Fractions") [] (utf8 "math") [utf8 "a"; utf8 "b"] [] in
  let t := fst (process_article ascii_isalnum ascii_lower posix_str name_stem w
                                (InScripts (utf8 "article.md")) None false) in
  (asks_inference t = true <-> category md = [] \/ tags md = []) /\
  (category md <> [] -> tags md <> [] -> asks_inference t = false).
Proof.
  cbv zeta.
  apply (inference_iff_category_or_tags_missing
           ascii_isalnum ascii_lower posix_str name_stem
           (sample_world (Some (utf8 "key")) (Some with_category_and_tags)
                         (Ok sample_reply) sample_page)
           (InScripts (utf8 "article.md")) None false
           (content := with_category_and_tags));
    vm_compute; reflexivity.
Defined.

(** C4 as stated fails: the frontmatter gives no references, the reply names
    a related page, and after the inference step the references hold it. *)
Lemma inference_fills_references :
  inference_runs empty_metadata = true /\
  references empty_metadata = [] /\
  snd (infer_missing
         (sample_world (Some (utf8 "key")) (Some (utf8 "body")) (Ok sample_reply) sample_page)
         (utf8 "body") empty_metadata) =
  Ok (mkMetadata [] [] (utf8 "算数") [utf8 "分数"] [utf8 "math.html"]).
Proof. repeat split; vm_compute; reflexivity. Qed.

(** C5 as stated fails: the categories and tags request fails, and the run
    goes on to write the page and ends with status 0. *)
Lemma inference_failure_is_recovered :
  let w := sample_world (Some (utf8 "key")) (Some (utf8 "body"))
                        (Raise (APIError (utf8 "connection refused"))) sample_page in
  let run := main ascii_isalnum ascii_lower posix_str name_stem w sample_args in
  existsb (step_fails w) (fst run) = true /\
  stops_at_failure (step_fails w) (fst run) = false /\
  existsb is_write (fst run) = true /\
  ends_with_error_report (fst run) = false /\
  snd run = 0%Z.
Proof. cbv zeta. repeat split; vm_compute; reflexivity. Qed.

Lemma first_error_ends_run_witness :
  (snd (init (sample_world None None (Ok sample_reply) sample_page) None)
   = Raise (ValueError (utf8 "OpenAI API key not provided. Set OPENAI_API_KEY environment variable or pass api_key parameter.")) /\
   snd (main ascii_isalnum ascii_lower posix_str name_stem
          (sample_world None None (Ok sample_reply) sample_page) sample_args) = 1%Z) /\
  (is_raise (snd (init (sample_world (Some (utf8 "key")) None (Ok sample_reply) sample_page)
                       None)) = false /\
   arg_list sample_args = false /\
   path_exists (sample_world (Some (utf8 "key")) None (Ok sample_reply) sample_page)
               (InScripts (arg_article sample_args)) = false /\
   snd (main ascii_isalnum ascii_lower posix_str name_stem
          (sample_world (Some (utf8 "key")) None (Ok sample_reply) sample_page)
          sample_args) = 1%Z).
Proof.
  split.
  - split; [reflexivity|].
    destruct (first_error_ends_run ascii_isalnum ascii_lower posix_str name_stem
                (sample_world None None (Ok sample_reply) sample_page) sample_args)
      as (_ & _ & _ & _ & H & _).
    rewrite (H _ eq_refl). reflexivity.
  - split; [reflexivity|]. split; [reflexivity|]. split; [reflexivity|].
    destruct (first_error_ends_run ascii_isalnum ascii_lower posix_str name_stem
                (sample_world (Some (utf8 "key")) None (Ok sample_reply) sample_page)
                sample_args)
      as (_ & _ & _ & _ & _ & H).
    rewrite (H eq_refl eq_refl eq_refl). reflexivity.
Defined.

(** C9 as stated fails: the tags line is empty and so is the category, and
    the inference request is made all the same. *)
Lemma empty_tags_do_not_skip_inference :
  let w := sample_world (Some (utf8 "key")) (Some with_empty_tags)
                        (Ok sample_reply) sample_page in
  extract_metadata with_empty_tags = Ok (mkMetadata [] [] [] [[]] []) /\
  asks_inference
    (fst (process_article ascii_isalnum ascii_lower posix_str name_stem w
                          (InScripts (utf8 "article.md")) None false)) = true.
Proof. cbv zeta. split; vm_compute; reflexivity. Qed.

Lemma empty_tags_value_counts_as_present_witness :
  let w := sample_world (Some (utf8 "key")) (Some with_empty_tags)
                        (Ok sample_reply) sample_page in
  field_value (utf8 "tags") (frontmatter_lines with_empty_tags) = Some (utf8 "[]") /\
  strip_chars (utf8 "[]") brackets = [] /\
  path_exists w (InScripts (utf8 "article.md")) = true /\
  read_text w (InScripts (utf8 "article.md")) = Ok with_empty_tags /\
  exists md : metadata,
    extract_metadata with_empty_tags = Ok md /\
    tags md = [[]] /\
    (exists md' : metadata,
       snd (infer_missing w with_empty_tags md) = Ok md' /\ tags md' = [[]]) /\
    asks_inference
      (fst (process_article ascii_isalnum ascii_lower posix_str name_stem w
                            (InScripts (utf8 "article.md")) None false)) =
    negb (nonempty (category md)).
Proof.
  cbv zeta.
  split; [vm_compute; reflexivity|].
  split; [vm_compute; reflexivity|].
  split; [reflexivity|].
  split; [reflexivity|].
  apply (empty_tags_value_counts_as_present
           ascii_isalnum ascii_lower posix_str name_stem
           (sample_world (Some (utf8 "key")) (Some with_empty_tags)
                         (Ok sample_reply) sample_page)
           (InScripts (utf8 "article.md")) None false
           (content := with_empty_tags) (v := utf8 "[]"));
    vm_compute; reflexivity.
Defined.
(** * Further properties *)

(** ** Stripping *)

Lemma lstrip_by_Forall (P : char -> Prop) (p : char -> bool) (s : str) :
  Forall P s -> Forall P (lstrip_by p s).
Proof.
  induction 1 as [|c s Hc Hs IH]; cbn [lstrip_by]; [constructor|].
  destruct (p c); [exact IH | constructor; assumption].
Qed.

Lemma strip_by_Forall (P : char -> Prop) (p : char -> bool) (s : str) :
  Forall P s -> Forall P (strip_by p s).
Proof.
  intros H. unfold strip_by, rstrip_by.
  apply Forall_rev, lstrip_by_Forall, Forall_rev, lstrip_by_Forall, H.
Qed.

Lemma lstrip_by_head (p : char -> bool) (s : str) (d : char) :
  p d = false -> p (hd d (lstrip_by p s)) = false.
Proof.
  intros Hd. induction s as [|c s IH]; cbn [lstrip_by]; [exact Hd|].
  destruct (p c) eqn:E; [exact IH | exact E].
Qed.

Lemma last_rev (l : str) (d : char) : last (rev l) d = hd d l.
Proof.
  destruct l as [|c l]; [reflexivity|].
  cbn [rev hd]. apply last_last.
Qed.

Lemma rstrip_by_last (p : char -> bool) (s : str) (d : char) :
  p d = false -> p (last (rstrip_by p s) d) = false.
Proof.
  intros Hd. unfold rstrip_by. rewrite last_rev. apply lstrip_by_head, Hd.
Qed.

Lemma rstrip_by_snoc (p : char -> bool) (s : str) (c : char) :
  rstrip_by p (s ++ [c]) = if p c then rstrip_by p s else s ++ [c].
Proof.
  unfold rstrip_by. rewrite rev_app_distr. cbn [rev app lstrip_by].
  destruct (p c); [reflexivity|].
  cbn [rev]. rewrite rev_involutive. reflexivity.
Qed.

(** Stripping on the right never takes a first character that stripping
    on the left would keep. *)
Lemma rstrip_by_cons (p : char -> bool) (c : char) (s : str) :
  p c = false -> rstrip_by p (c :: s) = c :: rstrip_by p s.
Proof.
  intros Hc. induction s as [|d s IH] using rev_ind.
  - unfold rstrip_by. cbn [rev app lstrip_by]. rewrite Hc. reflexivity.
  - rewrite app_comm_cons, !rstrip_by_snoc.
    destruct (p d); [exact IH | reflexivity].
Qed.

Lemma lstrip_by_rejects (p : char -> bool) (s : str) :
  match lstrip_by p s with
  | [] => True
  | c :: _ => p c = false
  end.
Proof.
  induction s as [|x s IH]; cbn [lstrip_by]; [exact I|].
  destruct (p x) eqn:Ex; [exact IH | exact Ex].
Qed.

(** What [strip] returns neither begins nor ends with a character of the
    set. *)
Lemma strip_by_no_edge (p : char -> bool) (s : str) :
  at_edge p (strip_by p s) = false.
Proof.
  unfold strip_by.
  pose proof (lstrip_by_rejects p s) as Hc.
  destruct (lstrip_by p s) as [|c t]; [reflexivity|].
  rewrite rstrip_by_cons by exact Hc. cbn [at_edge]. rewrite Hc. cbn [orb].
  change (last (c :: rstrip_by p t) c) with
    (match rstrip_by p t with [] => c | _ :: _ => last (rstrip_by p t) c end).
  destruct (rstrip_by p t) eqn:E; [exact Hc|].
  rewrite <- E. apply rstrip_by_last, Hc.
Qed.

(** A string with no character of the set at either end is left as it is. *)
Lemma strip_by_fixed (p : char -> bool) (s : str) :
  at_edge p s = false -> strip_by p s = s.
Proof.
  destruct s as [|c s]; [reflexivity|].
  cbn [at_edge]. intros H. apply orb_false_iff in H as [Hc Hl].
  unfold strip_by. cbn [lstrip_by]. rewrite Hc.
  unfold rstrip_by.
  destruct (rev (c :: s)) as [|d r] eqn:E.
  - apply (f_equal (@rev _)) in E. rewrite rev_involutive in E. discriminate E.
  - assert (Hd : last (c :: s) c = d).
    { rewrite <- (rev_involutive (c :: s)), E. cbn [rev]. apply last_last. }
    rewrite Hd in Hl. cbn [lstrip_by]. rewrite Hl.
    rewrite <- E. apply rev_involutive.
Qed.

Lemma strip_by_idempotent (p : char -> bool) (s : str) :
  strip_by p (strip_by p s) = strip_by p s.
Proof. apply strip_by_fixed, strip_by_no_edge. Qed.

(** ** Pieces of a string *)

Lemma Forall_firstn_skipn (P : char -> Prop) (n : nat) (s : str) :
  Forall P s -> Forall P (firstn n s) /\ Forall P (skipn n s).
Proof.
  intros H. rewrite <- (firstn_skipn n s) in H.
  apply Forall_app in H. exact H.
Qed.

Lemma splitn_Forall (P : char -> Prop) (sep : str) (n : nat) :
  forall s : str, Forall P s -> Forall (Forall P) (splitn sep n s).
Proof.
  induction n as [|n IH]; intros s H; cbn [splitn].
  - constructor; [exact H | constructor].
  - destruct (find s sep) as [i|]; [|constructor; [exact H | constructor]].
    constructor.
    + apply Forall_firstn_skipn, H.
    + apply IH, Forall_firstn_skipn, H.
Qed.

Lemma find_char_none (s : str) (c : char) :
  find s [c] = None -> Forall (fun x => x <> c) s.
Proof.
  induction s as [|x s IH]; cbn [find startswith]; intros H; [constructor|].
  destruct (x =? c)%N eqn:E; cbn [andb] in H; [discriminate H|].
  destruct (find s [c]); [discriminate H|].
  constructor; [apply N.eqb_neq, E | apply IH; reflexivity].
Qed.

Lemma find_char_first (s : str) (c : char) :
  forall i : nat, find s [c] = Some i -> Forall (fun x => x <> c) (firstn i s).
Proof.
  induction s as [|x s IH]; cbn [find startswith]; intros i H; [discriminate H|].
  destruct (x =? c)%N eqn:E; cbn [andb] in H.
  - inversion H; subst i. constructor.
  - destruct (find s [c]) as [j|]; [|discriminate H].
    inversion H; subst i. cbn [firstn].
    constructor; [apply N.eqb_neq, E | apply IH; reflexivity].
Qed.

Lemma count_char_app (c : char) (a b : str) :
  count_char c (a ++ b) = (count_char c a + count_char c b)%nat.
Proof. unfold count_char. rewrite filter_app, length_app. reflexivity. Qed.

Lemma count_char_none (c : char) (s : str) :
  Forall (fun x => x <> c) s -> count_char c s = O.
Proof.
  unfold count_char. induction 1 as [|x s Hx Hs IH]; [reflexivity|].
  cbn [filter]. destruct (c =? x)%N eqn:E; [|exact IH].
  apply N.eqb_eq in E. congruence.
Qed.

(** Cutting at a character gives one piece more than the string has of
    it, and no piece holds the character. *)
Lemma splitn_char_length (c : char) (n : nat) :
  forall s : str, (length s <= n)%nat ->
  length (splitn [c] n s) = S (count_char c s).
Proof.
  induction n as [|n IH]; intros s Hn.
  - destruct s; [reflexivity | simpl in Hn; lia].
  - cbn [splitn]. destruct (find s [c]) as [i|] eqn:F.
    + pose proof (find_bound _ _ F) as B. cbn [length] in B.
      pose proof (find_split _ _ F) as Hs. cbn [length] in Hs.
      cbn [length]. rewrite IH by (rewrite length_skipn; lia).
      replace (count_char c s)
        with (count_char c (firstn i s ++ [c] ++ skipn (i + 1) s))
        by (rewrite <- Hs; reflexivity).
      rewrite !count_char_app.
      rewrite (count_char_none (find_char_first _ _ F)).
      unfold count_char at 2. cbn [filter]. rewrite N.eqb_refl. reflexivity.
    + rewrite (count_char_none (find_char_none _ _ F)). reflexivity.
Qed.

Lemma splitn_char_pieces (c : char) (n : nat) :
  forall s : str, (length s <= n)%nat ->
  Forall (Forall (fun x => x <> c)) (splitn [c] n s).
Proof.
  induction n as [|n IH]; intros s Hn.
  - destruct s; [repeat constructor | simpl in Hn; lia].
  - cbn [splitn]. destruct (find s [c]) as [i|] eqn:F.
    + pose proof (find_bound _ _ F) as B. cbn [length] in B.
      constructor; [exact (find_char_first _ _ F)|].
      apply IH. rewrite length_skipn. cbn [length]. lia.
    + constructor; [exact (find_char_none _ _ F) | constructor].
Qed.

(** ** What the fields of the metadata are made of *)

(** A value of the lines is the stripped text after the first colon of one
    of them. *)
Lemma field_value_from_line (key : str) (lines : list str) (v : str) :
  field_value key lines = Some v ->
  exists (line : str) (i : nat),
    In line lines /\ find line colon = Some i /\ v = strip (skipn (i + 1) line).
Proof.
  induction lines as [|l lines IH]; cbn [field_value]; [discriminate|].
  destruct (field_value key lines) as [v'|].
  - intros H; inversion H; subst v'.
    destruct (IH eq_refl) as (line & i & Hin & Hf & Hv).
    exists line, i. split; [right; exact Hin | split; assumption].
  - unfold key_value. destruct (find l colon) as [i|] eqn:F; [|discriminate].
    destruct (str_eqb (strip (firstn i l)) key); [|discriminate].
    intros H; inversion H.
    exists l, i. split; [left; reflexivity | split; [exact F | reflexivity]].
Qed.

Lemma field_value_Forall (P : char -> Prop) (key : str) (lines : list str) (v : str) :
  Forall (Forall P) lines -> field_value key lines = Some v -> Forall P v.
Proof.
  intros Hl Hv.
  apply field_value_from_line in Hv as (line & i & Hin & _ & ->).
  apply strip_by_Forall, Forall_firstn_skipn.
  rewrite Forall_forall in Hl. apply Hl, Hin.
Qed.

Lemma text_of_Forall (P : char -> Prop) (v : str) : Forall P v -> Forall P (text_of v).
Proof. apply strip_by_Forall. Qed.

Lemma list_of_Forall (P : char -> Prop) (v : str) :
  Forall P v -> Forall (Forall P) (list_of v).
Proof.
  intros H. unfold list_of, split_all. apply Forall_map.
  eapply Forall_impl; [|apply splitn_Forall, strip_by_Forall, H].
  intros t Ht. apply strip_by_Forall, strip_by_Forall, Ht.
Qed.

(** Every character of every field is a character of one of the lines. *)
Lemma metadata_of_lines_Forall (P : char -> Prop) (lines : list str) :
  Forall (Forall P) lines ->
  Forall P (title (metadata_of_lines lines empty_metadata)) /\
  Forall P (description (metadata_of_lines lines empty_metadata)) /\
  Forall P (category (metadata_of_lines lines empty_metadata)) /\
  Forall (Forall P) (tags (metadata_of_lines lines empty_metadata)) /\
  Forall (Forall P) (references (metadata_of_lines lines empty_metadata)).
Proof.
  intros Hl.
  unfold metadata_of_lines, field, empty_metadata;
    cbn [title description category tags references].
  repeat split;
    match goal with
    | |- context [field_value ?k lines] =>
      destruct (field_value k lines) as [v|] eqn:E; [|constructor];
      first [apply text_of_Forall | apply list_of_Forall];
      eapply field_value_Forall; eassumption
    end.
Qed.

Lemma frontmatter_lines_one_line (content : str) :
  Forall (Forall (fun c => c <> newline)) (frontmatter_lines content).
Proof.
  unfold frontmatter_lines.
  destruct (frontmatter_block content) as [fm|]; [|constructor].
  apply splitn_char_pieces. lia.
Qed.

Lemma char_in_false (s : str) (c : char) :
  Forall (fun x => x <> c) s -> char_in s c = false.
Proof.
  unfold char_in. induction 1 as [|x s Hx Hs IH]; [reflexivity|].
  cbn [existsb]. rewrite IH, orb_false_r. apply N.eqb_neq. congruence.
Qed.

Lemma all_without (l : list str) (c : char) :
  Forall (Forall (fun x => x <> c)) l ->
  forallb (fun t => negb (char_in t c)) l = true.
Proof.
  induction 1 as [|t l Ht Hl IH]; [reflexivity|].
  cbn [forallb]. rewrite (char_in_false Ht), IH. reflexivity.
Qed.

(** X1: no field of the metadata spans lines: the title, the description,
    the category and every item of the tags and of the references are free
    of the newline character, whatever the content. *)
Theorem extract_metadata_fields_within_a_line (content : str) :
  exists md : metadata,
    extract_metadata content = Ok md /\
    char_in (title md) newline = false /\
    char_in (description md) newline = false /\
    char_in (category md) newline = false /\
    forallb (fun t => negb (char_in t newline)) (tags md) = true /\
    forallb (fun r => negb (char_in r newline)) (references md) = true.
Proof.
  eexists. split; [apply extract_metadata_of_lines|].
  destruct (metadata_of_lines_Forall (frontmatter_lines_one_line content))
    as (H1 & H2 & H3 & H4 & H5).
  repeat split;
    first [apply char_in_false; assumption | apply all_without; assumption].
Qed.

Lemma text_of_no_edge (v : str) : at_edge (char_in quotes) (text_of v) = false.
Proof. apply strip_by_no_edge. Qed.

Lemma list_of_no_edge (v : str) :
  forallb (fun t => negb (at_edge (char_in quotes) t)) (list_of v) = true.
Proof.
  unfold list_of. apply forallb_forall. intros t Ht.
  apply in_map_iff in Ht as (x & <- & _).
  unfold strip_chars. rewrite strip_by_no_edge. reflexivity.
Qed.

(** X2: the quote characters around a value are taken off on both sides, so
    that no field is left with one at either end: neither the title, the
    description and the category nor any item of the tags and of the
    references begins or ends with a double or a single quote. *)
Theorem extract_metadata_fields_unquoted (content : str) :
  exists md : metadata,
    extract_metadata content = Ok md /\
    at_edge (char_in quotes) (title md) = false /\
    at_edge (char_in quotes) (description md) = false /\
    at_edge (char_in quotes) (category md) = false /\
    forallb (fun t => negb (at_edge (char_in quotes) t)) (tags md) = true /\
    forallb (fun r => negb (at_edge (char_in quotes) r)) (references md) = true.
Proof.
  eexists. split; [apply extract_metadata_of_lines|].
  unfold metadata_of_lines, field, empty_metadata;
    cbn [title description category tags references].
  repeat split;
    match goal with
    | |- context [field_value ?k ?l] => destruct (field_value k l) as [v|]
    end;
    first [reflexivity | apply text_of_no_edge | apply list_of_no_edge].
Qed.

Lemma list_of_length (v : str) :
  length (list_of v) = S (count_char comma_char (strip_chars v brackets)).
Proof.
  unfold list_of, split_all. rewrite length_map.
  change comma with [comma_char]. apply splitn_char_length. lia.
Qed.

(** X3: a tags line (and so a references line) always gives at least one
    item: one more than its value has commas between the brackets.  The
    list is empty exactly when no line of the frontmatter has the key. *)
Theorem extract_metadata_list_length (content : str) :
  let lines := frontmatter_lines content in
  exists md : metadata,
    extract_metadata content = Ok md /\
    length (tags md) =
      match field_value (utf8 "tags") lines with
      | Some v => S (count_char comma_char (strip_chars v brackets))
      | None => O
      end /\
    length (references md) =
      match field_value (utf8 "references") lines with
      | Some v => S (count_char comma_char (strip_chars v brackets))
      | None => O
      end.
Proof.
  intros lines. eexists. split; [apply extract_metadata_of_lines|].
  fold lines.
  unfold metadata_of_lines, field, empty_metadata; cbn [tags references].
  split;
    match goal with
    | |- context [field_value ?k lines] => destruct (field_value k lines) as [v|]
    end;
    first [reflexivity | apply list_of_length].
Qed.

(** ** Whitespace around a line *)

Lemma lstrip_by_all (p : char -> bool) (ws : str) :
  forallb p ws = true -> lstrip_by p ws = [].
Proof.
  induction ws as [|c ws IH]; cbn [forallb lstrip_by]; [reflexivity|].
  intros H. apply andb_true_iff in H as [Hc Hw]. rewrite Hc. apply IH, Hw.
Qed.

Lemma lstrip_by_app (p : char -> bool) (s t : str) :
  lstrip_by p (s ++ t) =
  match lstrip_by p s with
  | [] => lstrip_by p t
  | c :: r => (c :: r) ++ t
  end.
Proof.
  induction s as [|c s IH]; cbn [app lstrip_by]; [reflexivity|].
  destruct (p c); [exact IH | reflexivity].
Qed.

Lemma rstrip_by_app_all (p : char -> bool) (s ws : str) :
  forallb p ws = true -> rstrip_by p (s ++ ws) = rstrip_by p s.
Proof.
  induction ws as [|c ws IH] using rev_ind; intros H.
  - rewrite app_nil_r. reflexivity.
  - rewrite forallb_app in H. apply andb_true_iff in H as [Hw Hc].
    cbn [forallb] in Hc. rewrite andb_true_r in Hc.
    rewrite app_assoc, rstrip_by_snoc, Hc. apply IH, Hw.
Qed.

Lemma strip_by_app_l (p : char -> bool) (ws s : str) :
  forallb p ws = true -> strip_by p (ws ++ s) = strip_by p s.
Proof.
  intros H. unfold strip_by. rewrite lstrip_by_app, (lstrip_by_all _ _ H). reflexivity.
Qed.

Lemma strip_by_app_r (p : char -> bool) (s ws : str) :
  forallb p ws = true -> strip_by p (s ++ ws) = strip_by p s.
Proof.
  intros H. unfold strip_by. rewrite lstrip_by_app.
  destruct (lstrip_by p s) as [|c r].
  - rewrite (lstrip_by_all _ _ H). reflexivity.
  - apply rstrip_by_app_all, H.
Qed.

Lemma find_char_app (a b : str) (c : char) :
  find (a ++ b) [c] =
  match find a [c] with
  | Some i => Some i
  | None => option_map (fun j => (length a + j)%nat) (find b [c])
  end.
Proof.
  induction a as [|x a IH].
  - cbn [app length Nat.add]. change (find [] [c]) with (@None nat).
    destruct (find b [c]); reflexivity.
  - cbn [app find startswith length].
    destruct (x =? c)%N; cbn [andb]; [reflexivity|].
    rewrite IH. destruct (find a [c]); cbn [option_map]; [reflexivity|].
    destruct (find b [c]); reflexivity.
Qed.

Lemma find_char_absent (s : str) (c : char) :
  char_in s c = false -> find s [c] = None.
Proof.
  unfold char_in. induction s as [|x s IH]; cbn [existsb find startswith]; [reflexivity|].
  intros H. apply orb_false_iff in H as [Hx Hs].
  rewrite N.eqb_sym, Hx. cbn [andb]. rewrite (IH Hs). reflexivity.
Qed.

Lemma whitespace_has_no_colon (ws : str) :
  forallb isspace ws = true -> find ws colon = None.
Proof.
  intros H. change colon with [colon_char]. apply find_char_absent.
  unfold char_in. induction ws as [|c ws IH]; [reflexivity|].
  cbn [forallb existsb] in *. apply andb_true_iff in H as [Hc Hw].
  rewrite (IH Hw), orb_false_r.
  destruct (colon_char =? c)%N eqn:E; [|reflexivity].
  apply N.eqb_eq in E; subst c. discriminate Hc.
Qed.

Lemma line_update_outer_whitespace (md : metadata) (before line after : str) :
  forallb isspace before = true ->
  forallb isspace after = true ->
  line_update md (before ++ line ++ after) = line_update md line.
Proof.
  intros Hb Ha. unfold line_update.
  change colon with [colon_char] in *.
  rewrite !find_char_app.
  pose proof (whitespace_has_no_colon _ Hb) as Fb.
  pose proof (whitespace_has_no_colon _ Ha) as Fa.
  change colon with [colon_char] in *. rewrite Fb, Fa.
  destruct (find line [colon_char]) as [i|] eqn:F; cbn [option_map]; [|reflexivity].
  pose proof (find_bound _ _ F) as B. cbn [length] in B.
  replace (firstn (length before + i) (before ++ line ++ after))
    with (before ++ firstn i line).
  2:{ rewrite firstn_app_2, firstn_app.
      replace (i - length line)%nat with O by lia.
      cbn [firstn]. rewrite app_nil_r. reflexivity. }
  replace (skipn (length before + i + 1) (before ++ line ++ after))
    with (skipn (i + 1) line ++ after).
  2:{ rewrite !skipn_app.
      rewrite (skipn_all2 before) by lia.
      replace (length before + i + 1 - length before)%nat with (i + 1)%nat by lia.
      replace (i + 1 - length line)%nat with O by lia.
      reflexivity. }
  unfold strip.
  rewrite strip_by_app_l by exact Hb. rewrite strip_by_app_r by exact Ha.
  reflexivity.
Qed.

(** X4: whitespace before and after a frontmatter line counts for nothing:
    an indented line, or one that ends in spaces or in the carriage return
    of a CRLF file, updates the metadata as the bare line does. *)
Theorem extract_metadata_line_outer_whitespace (md : metadata)
  (before line after : str) :
  forallb isspace before = true ->
  forallb isspace after = true ->
  extract_metadata_line md (before ++ line ++ after) = extract_metadata_line md line.
Proof.
  intros Hb Ha. rewrite !extract_metadata_line_ok.
  rewrite line_update_outer_whitespace by assumption. reflexivity.
Qed.

Lemma extract_metadata_line_outer_whitespace_witness :
  forallb isspace (utf8 "  ") = true /\
  forallb isspace [13%N] = true /\
  extract_metadata_line empty_metadata (utf8 "  " ++ utf8 "title: x" ++ [13%N]) =
  extract_metadata_line empty_metadata (utf8 "title: x").
Proof.
  split; [reflexivity|]. split; [reflexivity|].
  apply extract_metadata_line_outer_whitespace; reflexivity.
Defined.

(** ** The two requests *)

Lemma categories_prompt_length (excerpt : str) :
  length (categories_prompt excerpt) = (589 + length excerpt)%nat.
Proof.
  unfold categories_prompt. rewrite !length_app.
  repeat match goal with
         | |- context [length (utf8 ?s)] =>
           let n := eval vm_compute in (length (utf8 s)) in
           change (length (utf8 s)) with n
         end.
  cbn [length]. lia.
Qed.

(** X5: [generate_categories_and_tags] never raises, whatever the service
    does: it makes one request, and returns the reply or, when the request
    or the decoding of the reply raised, the default dictionary after a
    warning.  The request carries at most the first 1000 characters of the
    article, so that its prompt never exceeds 1589 characters. *)
Theorem generate_categories_and_tags_never_raises (w : world) (markdown_content : str) :
  let req := CategoriesAndTags (firstn 1000 markdown_content) in
  generate_categories_and_tags w markdown_content =
    match chat_json w req with
    | Ok g => ([Chat req], Ok g)
    | Raise e => ([Chat req; Print (MsgWarning e)], Ok default_generated)
    end /\
  snd (generate_categories_and_tags w markdown_content) =
    Ok (reply_or_default w markdown_content) /\
  (length (prompt_of req) <= 1589)%nat.
Proof.
  cbv zeta. unfold generate_categories_and_tags, reply_or_default.
  split; [|split].
  - destruct (chat_json w _); reflexivity.
  - destruct (chat_json w _); reflexivity.
  - cbn [prompt_of]. rewrite categories_prompt_length.
    pose proof (firstn_le_length 1000 markdown_content). lia.
Qed.

(** X6: [generate_html_content] makes one request, which carries the whole
    article with the title, the category and the joined tags and
    references, and prints nothing.  It returns the reply without
    surrounding whitespace; whatever exception the request raises is raised
    again as an [Exception] whose message is that of the exception after
    the words "OpenAI API error: ". *)
Theorem generate_html_content_strips_or_wraps (w : world) (markdown_content : str)
  (md : metadata) :
  let req := HtmlContent (title md) (category md) (join (utf8 ", ") (tags md))
                         (join (utf8 ", ") (references md)) markdown_content in
  generate_html_content w markdown_content md =
    match chat_text w req with
    | Ok text => ([Chat req], Ok (strip text))
    | Raise e => ([Chat req], Raise (Exception (utf8 "OpenAI API error: " ++ exn_str e)))
    end /\
  match snd (generate_html_content w markdown_content md) with
  | Ok html => at_edge isspace html = false /\ strip html = html
  | Raise e => startswith (exn_str e) (utf8 "OpenAI API error: ") = true
  end.
Proof.
  cbv zeta. unfold generate_html_content.
  destruct (chat_text w _) as [text|e]; cbn [try_except io_bind emit lift io_ret raise app snd].
  - split; [reflexivity|]. split.
    + apply strip_by_no_edge.
    + apply strip_by_idempotent.
  - split; [reflexivity|]. cbn [exn_str]. apply startswith_app.
Qed.

(** ** A run of the pipeline, step by step *)

Lemma extracted_ok (content : str) : extract_metadata content = Ok (extracted content).
Proof. unfold extracted. rewrite extract_metadata_lines. reflexivity. Qed.

Lemma inferred_ok (w : world) (content : str) :
  snd (infer_missing w content (extracted content)) = Ok (inferred w content).
Proof. unfold inferred. rewrite infer_missing_result. reflexivity. Qed.

Lemma infer_missing_trace (w : world) (content : str) (md : metadata) :
  fst (infer_missing w content md) =
  if inference_runs md then
    [Print MsgGenerating; Chat (inference_request content)] ++
    match chat_json w (inference_request content) with
    | Ok _ => []
    | Raise e => [Print (MsgWarning e)]
    end ++ [Print (MsgGenerated (reply_or_default w content))]
  else [].
Proof.
  unfold infer_missing, inference_runs, reply_or_default, inference_request,
    generate_categories_and_tags.
  destruct (negb (nonempty (category md)) || negb (nonempty (tags md))); [|reflexivity].
  destruct (chat_json w _); reflexivity.
Qed.

(** ** The name of the page *)

Section BaseName.

Variable cls : char -> bool.
Variable h : char.
Hypothesis cls_h : forall c : char, cls c = false -> (c =? h)%N = false.

Lemma find_pair_cons (c : char) (s : str) :
  find (c :: s) [h; h] =
  if (c =? h)%N && startswith s [h] then Some O else option_map S (find s [h; h]).
Proof. reflexivity. Qed.

(** The scan never puts two replacement characters side by side: a match
    takes all the characters of the class that follow each other. *)
Lemma re_sub_class_plus_from_single (s : str) :
  forall in_match : bool,
    find (re_sub_class_plus_from cls [h] in_match s) [h; h] = None /\
    (in_match = true -> startswith (re_sub_class_plus_from cls [h] in_match s) [h] = false).
Proof.
  induction s as [|c s IH]; intros in_match; [split; reflexivity|].
  cbn [re_sub_class_plus_from].
  destruct (cls c) eqn:Hc.
  - destruct (IH true) as [Hf Hs]. specialize (Hs eq_refl).
    destruct in_match; cbn [app].
    + split; [exact Hf | intros _; exact Hs].
    + split; [|discriminate].
      rewrite find_pair_cons, Hs, andb_false_r, Hf. reflexivity.
  - destruct (IH false) as [Hf _].
    pose proof (cls_h Hc) as Hne.
    split.
    + rewrite find_pair_cons, Hne, Hf. reflexivity.
    + intros _. cbn [startswith]. rewrite Hne. reflexivity.
Qed.

Lemma re_sub_class_plus_from_length (s : str) :
  forall in_match : bool,
    (length (re_sub_class_plus_from cls [h] in_match s) <= length s)%nat.
Proof.
  induction s as [|c s IH]; intros in_match; [reflexivity|].
  cbn [re_sub_class_plus_from].
  destruct (cls c).
  - specialize (IH true). destruct in_match; cbn [app length]; lia.
  - specialize (IH false). cbn [length]. lia.
Qed.

Lemma re_sub_class_plus_from_chars (keep : char -> bool) (s : str) :
  Forall (fun c => keep c = true) s ->
  forall in_match : bool,
    forallb (fun c => (c =? h)%N || keep c && negb (cls c))
            (re_sub_class_plus_from cls [h] in_match s) = true.
Proof.
  induction 1 as [|c s Hc Hs IH]; intros in_match; [reflexivity|].
  cbn [re_sub_class_plus_from].
  destruct (cls c) eqn:E.
  - destruct in_match; cbn [app forallb]; rewrite ?N.eqb_refl; apply IH.
  - cbn [forallb]. rewrite Hc, E, IH. cbn [negb andb].
    rewrite orb_true_r. reflexivity.
Qed.

End BaseName.

Section Runs.

Variable isalnum : char -> bool.
Variable lower : str -> str.
Variable path_str : path -> str.
Variable path_stem : path -> str.

Local Abbreviation process_article' := (process_article isalnum lower path_str path_stem).
Local Abbreviation main' := (main isalnum lower path_str path_stem).
Local Abbreviation output_filename' := (determine_output_filename isalnum lower path_stem).

(** The run of [process_article] on an article that is read. *)
Lemma process_article_read (w : world) (article_path : path) (output_filename : option str)
  (update_mode : bool) (content : str) :
  path_exists w article_path = true ->
  read_text w article_path = Ok content ->
  let md := inferred w content in
  let req := conversion_request w content in
  let name := output_filename' output_filename md article_path in
  let page (text : str) := create_full_html_page (strip text) md name in
  let head :=
    [Print (MsgProcessing article_path); ReadFile article_path;
     Print (MsgMetadata (extracted content))] ++
    fst (infer_missing w content (extracted content)) ++
    [Print MsgGeneratingHtml; Chat req] in
  let body (text : str) :=
    head ++
    (if update_mode && negb (path_exists w (InRoot name))
     then [Print (MsgUpdateMissing name)] else []) ++
    [Print MsgCreating; WriteFile (InRoot name) (page text)] in
  process_article' w article_path output_filename update_mode =
  match chat_text w req with
  | Raise e => (head, Raise (Exception (utf8 "OpenAI API error: " ++ exn_str e)))
  | Ok text =>
    match write_text w (InRoot name) (page text) with
    | Raise e => (body text, Raise e)
    | Ok _ =>
      (body text ++
       [Print (MsgSuccess update_mode (InRoot name));
        Print (MsgCategory (category md));
        Print (MsgTags (join (utf8 ", ") (tags md)))], Ok tt)
    end
  end.
Proof.
  intros He Hr. cbv zeta.
  unfold process_article, read_article. rewrite He, Hr.
  cbn [negb io_bind emit lift app].
  rewrite (extracted_ok content). cbn [io_bind emit lift app].
  pose proof (inferred_ok w content) as Hi.
  destruct (infer_missing w content (extracted content)) as [t1 r1].
  cbn [snd fst] in *. subst r1. cbn [io_bind emit app].
  unfold conversion_request, generate_html_content.
  set (md := inferred w content).
  destruct (chat_text w _) as [text|e];
    cbn [try_except io_bind emit lift io_ret raise app].
  - destruct (update_mode && _);
      cbn [io_bind emit io_ret app];
      destruct (write_text w _ _) as [[]|e];
      cbn [io_bind emit lift app]; rewrite <- ?app_assoc; reflexivity.
  - rewrite <- ?app_assoc. reflexivity.
Qed.

Lemma process_article_missing (w : world) (article_path : path)
  (output_filename : option str) (update_mode : bool) :
  path_exists w article_path = false ->
  process_article' w article_path output_filename update_mode =
  ([Print (MsgProcessing article_path)],
   Raise (FileNotFoundError (utf8 "Article not found: " ++ path_str article_path))).
Proof.
  intros He. unfold process_article, read_article. rewrite He. reflexivity.
Qed.

Lemma process_article_unreadable (w : world) (article_path : path)
  (output_filename : option str) (update_mode : bool) (e : exn) :
  path_exists w article_path = true ->
  read_text w article_path = Raise e ->
  process_article' w article_path output_filename update_mode =
  ([Print (MsgProcessing article_path); ReadFile article_path], Raise e).
Proof.
  intros He Hr. unfold process_article, read_article. rewrite He, Hr. reflexivity.
Qed.

Lemma effects_app (t t' : list event) : effects (t ++ t') = effects t ++ effects t'.
Proof. apply filter_app. Qed.

(** X7: the update flag changes messages only.  With and without it,
    [process_article] reads the same file, makes the same requests, writes
    the same text to the same file and ends the same way; a missing output
    file is no obstacle to an update. *)
Theorem update_mode_changes_messages_only (w : world) (article_path : path)
  (output_filename : option str) :
  effects (fst (process_article' w article_path output_filename true)) =
  effects (fst (process_article' w article_path output_filename false)) /\
  snd (process_article' w article_path output_filename true) =
  snd (process_article' w article_path output_filename false).
Proof.
  destruct (path_exists w article_path) eqn:He.
  - destruct (read_text w article_path) as [content|e] eqn:Hr.
    + rewrite !(process_article_read w article_path output_filename _ He Hr).
      cbv zeta.
      destruct (chat_text w _) as [text|e]; [|split; reflexivity].
      destruct (write_text w _ _) as [[]|e]; cbn [fst snd]; (split; [|reflexivity]);
        destruct (path_exists w (InRoot _)); cbn [andb negb];
        rewrite !effects_app; reflexivity.
    + rewrite !(process_article_unreadable w article_path output_filename _ He Hr).
      split; reflexivity.
  - rewrite !(process_article_missing w article_path output_filename _ He).
    split; reflexivity.
Qed.

Lemma infer_missing_writes (w : world) (content : str) (md : metadata) :
  filter is_write (fst (infer_missing w content md)) = [].
Proof.
  rewrite infer_missing_trace.
  destruct (inference_runs md); [|reflexivity].
  destruct (chat_json w _); reflexivity.
Qed.

Lemma infer_missing_chats (w : world) (content : str) (md : metadata) :
  filter is_chat (fst (infer_missing w content md)) =
  if inference_runs md then [Chat (inference_request content)] else [].
Proof.
  rewrite infer_missing_trace.
  destruct (inference_runs md); [|reflexivity].
  destruct (chat_json w _); reflexivity.
Qed.

Lemma infer_missing_stderr (w : world) (content : str) (md : metadata) :
  filter is_stderr (fst (infer_missing w content md)) = [].
Proof.
  rewrite infer_missing_trace.
  destruct (inference_runs md); [|reflexivity].
  destruct (chat_json w _); reflexivity.
Qed.

(** Filtering the trace of a run of [process_article] on an article that is
    read: piece by piece. *)
Ltac filter_run lemma :=
  cbv zeta;
  repeat match goal with
         | |- context [chat_text ?w ?r] => destruct (chat_text w r) as [?text|?e]
         | |- context [write_text ?w ?p ?x] => destruct (write_text w p x) as [[]|?e]
         | |- context [path_exists ?w (InRoot ?n)] => destruct (path_exists w (InRoot n))
         end;
  cbn [fst snd andb negb];
  repeat rewrite filter_app; rewrite ?lemma;
  try match goal with
      | |- context [inference_runs ?m] => destruct (inference_runs m)
      end;
  reflexivity.



Local Abbreviation outcome' := (outcome isalnum lower path_str path_stem).

Lemma init_run (w : world) (a : args) :
  init w (arg_api_key a) =
  ([], if key_available w a
       then Ok (mkManager (get (if truthy (arg_api_key a) then arg_api_key a
                                else environ_api_key w) []))
       else Raise missing_key).
Proof.
  unfold init, key_available, raise, io_ret.
  destruct (arg_api_key a) as [[|c k]|]; cbn [truthy nonempty orb get];
    try reflexivity;
    destruct (environ_api_key w) as [[|c' k']|]; reflexivity.
Qed.


(** X11: asked for the listing, [main] prints the number of markdown files
    of the scripts directory and one line for each, reads and writes no
    file, makes no request and exits with status 0, whatever the other
    arguments are.  It needs an API key all the same: without one (an empty
    one counts as none) it prints the error and exits with status 1. *)
Theorem main_lists_articles (w : world) (article : str) (output : option str)
  (update : bool) (key : option str) :
  main' w (mkArgs article output update key true) =
  if truthy key || truthy (environ_api_key w) then
    (Print (MsgFound (length (glob_md w)))
     :: map (fun name => Print (MsgArticle name)) (glob_md w), 0%Z)
  else ([PrintErr (MsgError missing_key)], 1%Z).
Proof.
  unfold main. rewrite init_run. unfold key_available. cbn [arg_api_key arg_list].
  destruct (truthy key || truthy (environ_api_key w)); [|reflexivity].
  cbn [io_bind emit app]. rewrite print_articles_trace. reflexivity.
Qed.

(** X12: the file name made of a title is a slug.  Before it is lowercased
    and given its extension, the base name holds nothing but hyphens and
    word characters that are no whitespace, never two hyphens in a row, and
    is no longer than the title; a title with no word character,
    whitespace or hyphen at all gives the empty base name.  An output
    filename that is given but empty counts as not given. *)
Theorem output_filename_is_a_slug (md : metadata) (article_path : path) :
  exists base : str,
    output_filename' None md article_path =
      (if nonempty (title md) then lower base else path_stem article_path) ++ utf8 ".html" /\
    forallb (fun c => (c =? hyphen)%N || is_word isalnum c && negb (isspace c)) base = true /\
    contains base [hyphen; hyphen] = false /\
    (length base <= length (title md))%nat /\
    (forallb (fun c => negb (is_word isalnum c || isspace c || (c =? hyphen)%N)) (title md)
       = true -> base = []) /\
    output_filename' (Some []) md article_path = output_filename' None md article_path.
Proof.
  set (cls := fun c : char => ((c =? hyphen)%N || isspace c)).
  set (keep := fun c : char => is_word isalnum c || isspace c || (c =? hyphen)%N).
  assert (Hcls : forall c, cls c = false -> (c =? hyphen)%N = false).
  { intros c H. apply orb_false_iff in H. apply H. }
  exists (re_sub_class_plus cls [hyphen] (filter keep (title md))).
  split; [|split; [|split; [|split; [|split]]]].
  - unfold determine_output_filename. cbn [truthy negb]. cbv zeta.
    rewrite re_sub_class_delete.
    destruct (nonempty (title md)); [|reflexivity].
    do 3 f_equal. apply filter_ext. intros c. apply negb_involutive.
  - unfold re_sub_class_plus.
    assert (Hk : Forall (fun c => keep c = true) (filter keep (title md))).
    { apply Forall_forall. intros c Hc. apply filter_In in Hc. apply Hc. }
    pose proof (@re_sub_class_plus_from_chars cls hyphen keep _ Hk false) as H.
    rewrite forallb_forall in H. apply forallb_forall. intros c Hc.
    specialize (H c Hc). revert H. unfold keep, cls.
    destruct (c =? hyphen)%N, (is_word isalnum c), (isspace c); intros H; exact H.
  - unfold contains, re_sub_class_plus.
    destruct (@re_sub_class_plus_from_single cls hyphen Hcls (filter keep (title md)) false)
      as [Hf _].
    rewrite Hf. reflexivity.
  - unfold re_sub_class_plus.
    pose proof (@re_sub_class_plus_from_length cls hyphen (filter keep (title md)) false).
    pose proof (filter_length_le keep (title md)). lia.
  - intros H.
    replace (filter keep (title md)) with (@nil char); [reflexivity|].
    symmetry. induction (title md) as [|c s IH]; [reflexivity|].
    cbn [forallb filter] in *. apply andb_true_iff in H as [Hc Hs].
    apply negb_true_iff in Hc. fold (keep c) in Hc. rewrite Hc. apply IH, Hs.
  - reflexivity.
Qed.

End Runs.

(** ** Reading back what was written *)

Lemma char_in_app (s t : str) (c : char) :
  char_in (s ++ t) c = char_in s c || char_in t c.
Proof. apply existsb_app. Qed.

Lemma char_in_join (sep : str) (c : char) (items : list str) :
  char_in sep c = false ->
  forallb (fun t => negb (char_in t c)) items = true ->
  char_in (join sep items) c = false.
Proof.
  intros Hsep. induction items as [|t items IH]; [reflexivity|].
  cbn [forallb]. intros H. apply andb_true_iff in H as [Ht Hi].
  apply negb_true_iff in Ht.
  destruct items as [|t' items']; [exact Ht|].
  change (join sep (t :: t' :: items')) with (t ++ sep ++ join sep (t' :: items')).
  rewrite !char_in_app, Ht, Hsep, (IH Hi). reflexivity.
Qed.

Lemma find_char_at (l rest : str) (c : char) :
  char_in l c = false -> find (l ++ c :: rest) [c] = Some (length l).
Proof.
  intros H. rewrite find_char_app. rewrite find_char_absent by exact H.
  cbn [find startswith]. rewrite N.eqb_refl. cbn [andb option_map].
  f_equal. lia.
Qed.

Lemma firstn_length_app (l rest : str) : firstn (length l) (l ++ rest) = l.
Proof.
  rewrite firstn_app, firstn_all, Nat.sub_diag. cbn [firstn]. apply app_nil_r.
Qed.

Lemma skipn_length_app (l rest : str) (k : nat) :
  skipn (length l + k) (l ++ rest) = skipn k rest.
Proof.
  rewrite skipn_app, skipn_all2 by lia.
  replace (length l + k - length l)%nat with k by lia. reflexivity.
Qed.

(** Cutting at a character what was joined with it gives the pieces back,
    when no piece holds the character. *)
Lemma splitn_join_char (c : char) (lines : list str) :
  forall n : nat,
    forallb (fun l => negb (char_in l c)) lines = true ->
    lines <> [] ->
    (length (join [c] lines) <= n)%nat ->
    splitn [c] n (join [c] lines) = lines.
Proof.
  induction lines as [|l lines IH]; intros n Hall Hne Hn; [congruence|].
  cbn [forallb] in Hall. apply andb_true_iff in Hall as [Hl Hrest].
  apply negb_true_iff in Hl.
  destruct lines as [|l2 lines'].
  - cbn [join]. destruct n; cbn [splitn]; [reflexivity|].
    rewrite find_char_absent by exact Hl. reflexivity.
  - change (join [c] (l :: l2 :: lines')) with (l ++ c :: join [c] (l2 :: lines')) in *.
    rewrite length_app in Hn. cbn [length] in Hn.
    destruct n as [|n]; [lia|].
    cbn [splitn]. rewrite find_char_at by exact Hl.
    rewrite firstn_length_app. cbn [length].
    rewrite skipn_length_app. cbn [skipn].
    f_equal. apply IH; [exact Hrest | discriminate | lia].
Qed.

Lemma join_cons_head (sep : str) (x : char) (r : str) (rest : list str) :
  join sep ((x :: r) :: rest) = x :: join sep (r :: rest).
Proof. destruct rest; reflexivity. Qed.

Lemma join_comma_space (rest : list str) :
  forall i : str,
    join (utf8 ", ") (i :: rest) = join [comma_char] (i :: map (cons 32%N) rest).
Proof.
  induction rest as [|r rest IH]; intros i; [reflexivity|].
  change (join (utf8 ", ") (i :: r :: rest))
    with (i ++ utf8 ", " ++ join (utf8 ", ") (r :: rest)).
  rewrite IH. cbn [map].
  change (join [comma_char] (i :: (32%N :: r) :: map (cons 32%N) rest))
    with (i ++ [comma_char] ++ join [comma_char] ((32%N :: r) :: map (cons 32%N) rest)).
  rewrite join_cons_head. reflexivity.
Qed.

Lemma at_edge_wrapped (p : char -> bool) (a b : char) (s : str) :
  p a = false -> p b = false -> at_edge p (a :: s ++ [b]) = false.
Proof.
  intros Ha Hb. cbn [at_edge]. rewrite Ha.
  rewrite app_comm_cons, last_last. exact Hb.
Qed.

Lemma strip_space_head (v : str) :
  at_edge isspace v = false -> strip (32%N :: v) = v.
Proof.
  intros H. unfold strip.
  change (32%N :: v) with ([32%N] ++ v).
  rewrite strip_by_app_l by reflexivity. apply strip_by_fixed, H.
Qed.

(** The key and the value of a written line. *)
Lemma key_value_written (key v : str) :
  char_in key colon_char = false ->
  at_edge isspace key = false ->
  at_edge isspace v = false ->
  key_value (key ++ utf8 ": " ++ v) = Some (key, v).
Proof.
  intros Hc Hk Hv. unfold key_value.
  change colon with [colon_char].
  change (key ++ utf8 ": " ++ v) with (key ++ colon_char :: 32%N :: v).
  rewrite find_char_at by exact Hc.
  rewrite firstn_length_app, skipn_length_app. cbn [skipn].
  unfold strip at 1. rewrite strip_by_fixed by exact Hk.
  rewrite strip_space_head by exact Hv. reflexivity.
Qed.

Lemma text_of_plain (v : str) : at_edge (char_in quotes) v = false -> text_of v = v.
Proof. apply strip_by_fixed. Qed.

Lemma list_of_written (items : list str) :
  plain_list items = true ->
  list_of (utf8 "[" ++ join (utf8 ", ") items ++ utf8 "]") = items.
Proof.
  unfold plain_list. intros H.
  apply andb_true_iff in H as [H Hb]. apply andb_true_iff in H as [Hne Hall].
  apply negb_true_iff in Hb.
  destruct items as [|i rest]; [discriminate Hne|].
  unfold list_of, split_all, strip_chars.
  rewrite strip_by_app_l by reflexivity.
  rewrite strip_by_app_r by reflexivity.
  rewrite strip_by_fixed by exact Hb.
  rewrite join_comma_space. change comma with [comma_char].
  rewrite splitn_join_char; [| |discriminate|lia].
  - cbn [map forallb] in *. apply andb_true_iff in Hall as [Hi Hrest].
    apply andb_true_iff in Hi as [Hi _]. unfold plain in Hi.
    apply andb_true_iff in Hi as [Hi Hq]. apply andb_true_iff in Hi as [_ Hs].
    apply negb_true_iff in Hq, Hs.
    unfold strip. rewrite (@strip_by_fixed isspace i Hs), (@strip_by_fixed _ i Hq).
    f_equal. rewrite map_map.
    rewrite <- (map_id rest) at 2. apply map_ext_in.
    intros r Hr. rewrite forallb_forall in Hrest. specialize (Hrest r Hr).
    apply andb_true_iff in Hrest as [Hp _]. unfold plain in Hp.
    apply andb_true_iff in Hp as [Hp Hq']. apply andb_true_iff in Hp as [_ Hs'].
    apply negb_true_iff in Hq', Hs'.
    fold (strip (32%N :: r)). rewrite strip_space_head by exact Hs'.
    apply strip_by_fixed, Hq'.
  - cbn [map forallb] in *. apply andb_true_iff in Hall as [Hi Hrest].
    apply andb_true_iff in Hi as [_ Hi]. rewrite Hi. cbn [andb].
    rewrite forallb_forall in *. intros x Hx.
    apply in_map_iff in Hx as (r & <- & Hr). specialize (Hrest r Hr).
    apply andb_true_iff in Hrest as [_ Hc].
    unfold char_in in *. cbn [existsb]. exact Hc.
Qed.

Ltac split_andb :=
  repeat match goal with
         | H : _ && _ = true |- _ => apply andb_true_iff in H as [? ?]
         | H : negb _ = true |- _ => apply negb_true_iff in H
         end.

Lemma plain_list_one_line (items : list str) :
  plain_list items = true ->
  char_in (join (utf8 ", ") items) newline = false.
Proof.
  unfold plain_list. intros H. split_andb.
  apply char_in_join; [reflexivity|].
  match goal with H : forallb _ items = true |- _ => rename H into Hall end.
  rewrite forallb_forall in *. intros t Ht. specialize (Hall t Ht).
  unfold plain in Hall. split_andb.
  match goal with H : char_in t newline = false |- _ => rewrite H end. reflexivity.
Qed.

Lemma frontmatter_of_one_line (md : metadata) :
  plain (title md) = true -> plain (description md) = true ->
  plain (category md) = true ->
  plain_list (tags md) = true -> plain_list (references md) = true ->
  forallb (fun l => negb (char_in l newline)) (frontmatter_of md) = true.
Proof.
  intros Ht Hd Hc Htg Hr.
  apply plain_list_one_line in Htg, Hr.
  unfold plain in *. split_andb.
  unfold frontmatter_of, text_line, list_line. cbn [forallb].
  rewrite !char_in_app.
  repeat match goal with H : char_in _ newline = false |- _ => rewrite H; clear H end.
  reflexivity.
Qed.

(** The lines of a written block are the lines written. *)
Lemma lines_of_block (md : metadata) :
  plain (title md) = true -> plain (description md) = true ->
  plain (category md) = true ->
  plain_list (tags md) = true -> plain_list (references md) = true ->
  split_all [newline] (strip (block_of md)) = frontmatter_of md.
Proof.
  intros Ht Hd Hc Htg Hr.
  unfold block_of, strip.
  rewrite strip_by_app_l by reflexivity.
  rewrite strip_by_app_r by reflexivity.
  rewrite strip_by_fixed.
  - unfold split_all. apply splitn_join_char; [|discriminate|lia].
    apply frontmatter_of_one_line; assumption.
  - unfold frontmatter_of, text_line, list_line. cbn [join].
    change (utf8 "title") with (116%N :: utf8 "itle").
    change (utf8 "]") with [93%N].
    rewrite !app_assoc. cbn [app].
    apply at_edge_wrapped; reflexivity.
Qed.

Ltac literal_keys :=
  repeat match goal with
         | |- context [str_eqb (utf8 ?a) (utf8 ?b)] =>
           let r := eval vm_compute in (str_eqb (utf8 a) (utf8 b)) in
           change (str_eqb (utf8 a) (utf8 b)) with r
         end.

(** The record of the lines written is the record they were written for. *)
Lemma metadata_of_frontmatter (md : metadata) :
  plain (title md) = true -> plain (description md) = true ->
  plain (category md) = true ->
  plain_list (tags md) = true -> plain_list (references md) = true ->
  metadata_of_lines (frontmatter_of md) empty_metadata = md.
Proof.
  intros Ht Hd Hc Htg Hr.
  pose proof (list_of_written _ Htg) as Ltg.
  pose proof (list_of_written _ Hr) as Lr.
  unfold plain in Ht, Hd, Hc. split_andb.
  unfold metadata_of_lines, field, frontmatter_of, text_line, list_line.
  cbn [field_value].
  rewrite !key_value_written by
    first [reflexivity | assumption
          | change (utf8 "[") with [91%N]; change (utf8 "]") with [93%N];
            cbn [app]; apply at_edge_wrapped; reflexivity].
  literal_keys. cbv iota.
  rewrite Ltg, Lr, !text_of_plain by assumption.
  destruct md; reflexivity.
Qed.

(** X13: a frontmatter that is written is read back.  For a record of plain
    fields (values within a line, with no whitespace and no quote character
    at either end; lists that are not empty, of plain items with no comma,
    with no square bracket at either end of the joined items) and a block
    in which the closing delimiter is the first one, the document made of
    the opening delimiter, the five lines [key: value], the closing
    delimiter and any body gives that very record.  Values may hold colons:
    a line is cut at its first colon only. *)
Theorem extract_metadata_reads_back (md : metadata) (body : str) :
  writable md = true ->
  extract_metadata (document_of md body) = Ok md.
Proof.
  unfold writable. intros H.
  repeat match goal with
         | H : _ && _ = true |- _ => apply andb_true_iff in H as [H ?]
         end.
  match goal with H : negb (contains _ _) = true |- _ => apply negb_true_iff in H end.
  rewrite extract_metadata_of_lines. unfold frontmatter_lines, document_of.
  rewrite frontmatter_block_found by assumption.
  rewrite lines_of_block by assumption.
  rewrite metadata_of_frontmatter by assumption.
  reflexivity.
Qed.

Lemma extract_metadata_reads_back_witness :
  writable sample_metadata = true /\
  extract_metadata (document_of sample_metadata sample_body) = Ok sample_metadata.
Proof.
  split; [vm_compute; reflexivity|].
  apply extract_metadata_reads_back. vm_compute. reflexivity.
Defined.

(** ** The size of the conversion request *)

Lemma html_prompt_length (title category tags references markdown_content : str) :
  length (html_prompt title category tags references markdown_content) =
  (921 + length title + length category + length tags + length references
   + length markdown_content)%nat.
Proof.
  unfold html_prompt. rewrite !length_app.
  repeat match goal with
         | |- context [length (utf8 ?s)] =>
           let n := eval vm_compute in (length (utf8 s)) in
           change (length (utf8 s)) with n
         end.
  lia.
Qed.

(** X14: the conversion request is never cut short.  Its prompt holds the
    whole text of the article as it was read, between a text before and a
    closing text that is the same for every article, and it is 921
    characters longer than the title, the category, the joined tags, the
    joined references and the article together: it grows with the article
    without bound, where the prompt of the inference request stops at 1000
    characters of it. *)
Theorem conversion_prompt_is_unabridged (w : world) (content : str) :
  let md := inferred w content in
  let closing := utf8 "

Generate the complete HTML page following the existing site structure." in
  (exists before : str,
     prompt_of (conversion_request w content) = before ++ content ++ closing) /\
  length (prompt_of (conversion_request w content)) =
  (921 + length (title md) + length (category md)
   + length (join (utf8 ", ") (tags md)) + length (join (utf8 ", ") (references md))
   + length content)%nat.
Proof.
  cbv zeta. unfold conversion_request. cbn [prompt_of].
  split; [|apply html_prompt_length].
  unfold html_prompt. eexists.
  repeat rewrite app_assoc. reflexivity.
Qed.
